(** * GithubMonitor: the Express server of the dashboard

    A shallow embedding of the server: the GitHub request helper, the three
    per-PR helpers ([getPRReviews], [getLatestPRComment], [getPRWorkflows]),
    the standalone-workflow collector ([getUserWorkflows]) and the
    [/api/prs] route, followed by the properties of the aggregation.

    Conventions of the embedding.
    - A settled promise is a [result]: [Resolved v] or [Rejected e].  The
      upstream API is a snapshot [fetch] from request URLs to settled
      responses, so one refresh observes one state of the hosting service.
    - [try { ... } catch] blocks that mutate an accumulator ([allPRs],
      [allRuns]) run in the state-and-exception monad [Task]: what was pushed
      before a throw stays pushed.
    - [console.log] / [console.error] have no effect on the values computed
      and are left out; so is the [Authorization] header.
    - JSON payloads are records holding the fields the server reads.  A field
      is an [option] where the server guards it ([||], [&&], [?.]) or merely
      forwards it. *)

From Stdlib Require Import ZArith List String Ascii Bool Lia.
From Stdlib Require Import Permutation Sorted DecimalString.
Import ListNotations.

Local Open Scope string_scope.
Local Open Scope list_scope.
Local Open Scope Z_scope.

(** ** JavaScript prelude *)

(** The [message] of a thrown [Error]. *)
Definition Error := string.

Inductive result (A : Type) : Type :=
| Resolved (value : A)
| Rejected (reason : Error).
Arguments Resolved {A} value.
Arguments Rejected {A} reason.

(** [await p] followed by the rest of an [async] body. *)
Definition and_then {A B} (p : result A) (k : A -> result B) : result B :=
  match p with
  | Resolved a => k a
  | Rejected e => Rejected e
  end.

(** [try { body } catch (error) { handler }] around code without shared state. *)
Definition catch {A} (body : result A) (handler : Error -> result A) : result A :=
  match body with
  | Resolved a => Resolved a
  | Rejected e => handler e
  end.

(** [Promise.all([p, q])].  When both reject, the reason kept is the one of
    [p]; the callers only log it. *)
Definition Promise_all2 {A B} (p : result A) (q : result B) : result (A * B) :=
  match p, q with
  | Resolved a, Resolved b => Resolved (a, b)
  | Rejected e, _ => Rejected e
  | _, Rejected e => Rejected e
  end.

(** [Promise.all([p, q, r])]. *)
Definition Promise_all3 {A B C} (p : result A) (q : result B) (r : result C)
  : result (A * B * C) :=
  match p, q, r with
  | Resolved a, Resolved b, Resolved c => Resolved (a, b, c)
  | Rejected e, _, _ => Rejected e
  | _, Rejected e, _ => Rejected e
  | _, _, Rejected e => Rejected e
  end.

(** Code that pushes onto an array and may throw: the array is the state. *)
Definition Task (S A : Type) : Type := S -> S * result A.

Definition ret {S A} (a : A) : Task S A := fun s => (s, Resolved a).

Definition bind {S A B} (m : Task S A) (k : A -> Task S B) : Task S B :=
  fun s =>
    match m s with
    | (s', Resolved a) => k a s'
    | (s', Rejected e) => (s', Rejected e)
    end.

Definition await {S A} (p : result A) : Task S A := fun s => (s, p).

Definition try_catch {S A} (body : Task S A) (handler : Error -> Task S A)
  : Task S A :=
  fun s =>
    match body s with
    | (s', Resolved a) => (s', Resolved a)
    | (s', Rejected e) => handler e s'
    end.

(** [array.push(x)]. *)
Definition push {X} (x : X) : Task (list X) unit :=
  fun s => (s ++ [x], Resolved tt).

(** [for (const x of l) { body }]; [continue] is an early [ret tt]. *)
Fixpoint for_of {S X} (l : list X) (body : X -> Task S unit) : Task S unit :=
  match l with
  | [] => ret tt
  | x :: l' => bind (body x) (fun _ => for_of l' body)
  end.

Declare Scope task_scope.
Delimit Scope task_scope with task.
Notation "x <- m ;; k" := (bind m (fun x => k))
  (at level 61, m at next level, right associativity) : task_scope.
Notation "' pat <- m ;; k" := (bind m (fun x => match x with pat => k end))
  (at level 61, pat pattern, m at next level, right associativity) : task_scope.

(** A JavaScript number that is an integer or [NaN] ([None]). *)
Definition Number := option Z.

Definition Number_sub (x y : Number) : Number :=
  match x, y with
  | Some a, Some b => Some (a - b)
  | _, _ => None
  end.

(** [x < y]: false as soon as one side is [NaN]. *)
Definition Number_lt (x y : Number) : bool :=
  match x, y with
  | Some a, Some b => a <? b
  | _, _ => false
  end.

(** [Array.prototype.sort(comparefn)].  The sort is stable (ECMAScript 2019);
    a [NaN] from [comparefn] counts as [+0].  Every stable sort returns the
    same array when [comparefn] is a consistent ordering, so the insertion
    sort below stands for the engine's; with an inconsistent [comparefn] the
    order is implementation-defined and nothing is proved about it beyond
    the array being permuted. *)
Section ArraySort.
Context {A : Type} (comparefn : A -> A -> Number).

Definition SortCompare (x y : A) : Z :=
    match comparefn x y with
    | Some v => v
    | None => 0
    end.

Fixpoint sort_insert (x : A) (l : list A) : list A :=
    match l with
    | [] => [x]
    | y :: l' =>
        if SortCompare x y <=? 0 then x :: y :: l' else y :: sort_insert x l'
    end.

Definition Array_sort (l : list A) : list A := fold_right sort_insert [] l.
End ArraySort.

(** [s.split(sep)] for a one-character separator. *)
Fixpoint String_split (sep : ascii) (s : string) : list string :=
  match s with
  | EmptyString => [EmptyString]
  | String c s' =>
      if Ascii.eqb c sep then EmptyString :: String_split sep s'
      else match String_split sep s' with
           | [] => [String c EmptyString]
           | w :: ws => String c w :: ws
           end
  end.

(** A missing element of a destructured array is [undefined], which a
    template literal prints as the text below. *)
Definition template_of (o : option string) : string :=
  match o with
  | Some s => s
  | None => "undefined"
  end.

(** [`${n}`] for an integer [n]. *)
Definition Number_toString (n : Z) : string := NilZero.string_of_int (Z.to_int n).

(** Truthiness of a value that is a string, [null] or [undefined]. *)
Definition truthy (o : option string) : bool :=
  match o with
  | Some s => negb (s =? "")%string
  | None => false
  end.

(** *** Dates

    A [Date] is its time value: milliseconds since the epoch, or [NaN].
    [LocalTZA] is the offset of the server's time zone (ECMAScript 21.4.1);
    [setDate] works on the local calendar.  For a date [d] of the month,
    [MakeDay(year, month, d - n)] is the day number of the same local day
    moved back [n] days, which is what [Date_setDate_back] computes. *)
Definition msPerDay : Z := 86400000.

Definition Day (t : Z) : Z := t / msPerDay.
Definition TimeWithinDay (t : Z) : Z := t mod msPerDay.
Definition MakeDate (day time : Z) : Z := day * msPerDay + time.

Section LocalDates.
Variable LocalTZA : Z -> bool -> Z.

Definition LocalTime (t : Z) : Z := t + LocalTZA t true.
Definition UTC (t : Z) : Z := t - LocalTZA t false.

  (** [d.setDate(d.getDate() - n)] on the time value [tv] of [d]. *)
Definition Date_setDate_back (n : Z) (tv : Z) : Z :=
    let t := LocalTime tv in
    UTC (MakeDate (Day t - n) (TimeWithinDay t)).
End LocalDates.

(** ** Payloads of the GitHub REST API, as far as the server reads them *)

Module User.
Record t := { login : string }.
End User.

Module Team.
Record t := { slug : string; name : string }.
End Team.

Module Review.
Record t := {
    user : User.t;
    state : string;
    submitted_at : option string;
    author_association : string }.
End Review.

Module RequestedReviewers.
Record t := {
    users : option (list User.t);
    teams : option (list Team.t) }.
End RequestedReviewers.

Module Comment.
Record t := { id : Z; created_at : string }.
End Comment.

Module Run.
Record t := {
    id : Z;
    name : string;
    status : string;
    conclusion : option string;
    created_at : string;
    updated_at : string;
    html_url : string;
    head_branch : option string;
    head_sha : option string;
    pull_requests : option (list Z) }.
End Run.

Module Runs.
Record t := { workflow_runs : list Run.t }.
End Runs.

Module Branch.
Record t := { ref : string; sha : string }.
End Branch.

Module Pull.
Record t := {
    id : Z;
    number : Z;
    title : string;
    html_url : string;
    head : Branch.t;
    base : Branch.t;
    created_at : string;
    updated_at : string;
    user : User.t;
    draft : bool;
    mergeable : option bool }.
End Pull.

(** ** Records the server builds *)

Module ReviewEntry.
Record t := {
    user : string;
    submitted_at : option string;
    author_association : string }.
End ReviewEntry.

Module RequestedUser.
Record t := { user : string; type : string }.
End RequestedUser.

Module RequestedTeam.
Record t := { team : string; name : string; type : string }.
End RequestedTeam.

Module ReviewSummary.
Record t := {
    approving : list ReviewEntry.t;
    changesRequested : list ReviewEntry.t;
    pending : list ReviewEntry.t;
    requestedUsers : list RequestedUser.t;
    requestedTeams : list RequestedTeam.t }.

  (** The value of the [catch] branch of [getPRReviews]. *)
Definition empty : t :=
    {| approving := []; changesRequested := []; pending := [];
       requestedUsers := []; requestedTeams := [] |}.
End ReviewSummary.

Module PRWorkflow.
Record t := {
    id : Z;
    name : string;
    status : string;
    conclusion : option string;
    created_at : string;
    updated_at : string;
    html_url : string }.
End PRWorkflow.

Module StandaloneRun.
Record t := {
    id : Z;
    name : string;
    repository : string;
    status : string;
    conclusion : option string;
    created_at : string;
    updated_at : string;
    html_url : string;
    head_branch : option string;
    head_sha : option string }.
End StandaloneRun.

Module PullRequest.
Record t := {
    id : Z;
    number : Z;
    title : string;
    repository : string;
    html_url : string;
    head_branch : string;
    base_branch : string;
    created_at : string;
    updated_at : string;
    author : string;
    draft : bool;
    mergeable : option bool;
    reviews : ReviewSummary.t;
    latest_comment : option string;
    workflows : list PRWorkflow.t }.
End PullRequest.

(** ** The HTTP boundary *)

(** What [fetch] resolves to; [json] is the outcome of [response.json()]. *)
Module Response.
Record t (A : Type) := {
    ok : bool;
    status : Z;
    statusText : string;
    text : string;
    json : result A }.
Arguments ok {A} _.
Arguments status {A} _.
Arguments statusText {A} _.
Arguments text {A} _.
Arguments json {A} _.
End Response.

(** The request URLs of the server, indexed by the payload they answer with.
    - [pulls_open o r]: [/repos/o/r/pulls?state=open]
    - [pull_reviews o r n]: [/repos/o/r/pulls/n/reviews]
    - [pull_requested_reviewers o r n]: [/repos/o/r/pulls/n/requested_reviewers]
    - [issue_comments o r n]: [/repos/o/r/issues/n/comments]
    - [pull_comments o r n]: [/repos/o/r/pulls/n/comments]
    - [runs_by_head_sha o r sha]: [/repos/o/r/actions/runs?head_sha=sha]
    - [runs_by_actor o r a]: [/repos/o/r/actions/runs?actor=a&per_page=50] *)
Inductive Url : Type -> Type :=
| pulls_open (owner repo : string) : Url (list Pull.t)
| pull_reviews (owner repo : string) (prNumber : Z) : Url (list Review.t)
| pull_requested_reviewers (owner repo : string) (prNumber : Z)
  : Url RequestedReviewers.t
| issue_comments (owner repo : string) (prNumber : Z) : Url (list Comment.t)
| pull_comments (owner repo : string) (prNumber : Z) : Url (list Comment.t)
| runs_by_head_sha (owner repo headSha : string) : Url Runs.t
| runs_by_actor (owner repo actor : string) : Url Runs.t.

(** The body of an HTTP reply of the server. *)
Inductive Body : Type :=
| PullRequests (prs : list PullRequest.t)
| ErrorMessage (error : string).

Module Reply.
Record t := { status : Z; body : Body }.
End Reply.

(** The body of a reply of [/api/workflows]. *)
Inductive WorkflowsBody : Type :=
| StandaloneRuns (workflows : list StandaloneRun.t)
| WorkflowsError (error : string).

Module WorkflowsReply.
Record t := { status : Z; body : WorkflowsBody }.
End WorkflowsReply.

(** The body of a reply of [/api/debug]. *)
Inductive DebugBody : Type :=
| DebugReviews (reviews : ReviewSummary.t)
| DebugError (error : string).

Module DebugReply.
Record t := { status : Z; body : DebugBody }.
End DebugReply.

(** The body of [/api/config]. *)
Module Config.
Record t := { username : string; repositories : list string }.
End Config.

(** ** The page

    What the dashboard script reads and writes: the refresh button, the
    user name, the two containers, and the [repositories] field of the
    [GitHubMonitor] object. *)
Module Page.
Record t := {
  refreshBtn_disabled : bool;
  refreshBtn_textContent : string;
  username_textContent : string;
  prs_container_innerHTML : string;
  workflows_container_innerHTML : string;
  repositories : list string }.
End Page.

(** ** JavaScript prelude of the page *)

(** The double quote, for the HTML the script writes. *)
Definition dq : string := String (ascii_of_nat 34) EmptyString.

(** [Math.floor(x / d)] for a positive integer [d]. *)
Definition Number_floor_div (x : Number) (d : Z) : Number :=
  option_map (fun a => a / d) x.

(** [x !== y] on numbers: [NaN] differs from everything. *)
Definition Number_strict_neq (x y : Number) : bool :=
  match x, y with
  | Some a, Some b => negb (a =? b)
  | _, _ => true
  end.

(** [`${x}`] for a number. *)
Definition template_of_Number (x : Number) : string :=
  match x with
  | Some n => Number_toString n
  | None => "NaN"
  end.

(** [l.indexOf(x)]: the first place of [x], or [-1]. *)
Fixpoint Array_indexOf (l : list string) (x : string) : Z :=
  match l with
  | [] => -1
  | y :: l' =>
      if (y =? x)%string then 0
      else let i := Array_indexOf l' x in if i <? 0 then -1 else i + 1
  end.

(** [l.join('')]. *)
Definition Array_join (l : list string) : string := String.concat "" l.

(** An update of the state that cannot throw. *)
Definition modify {S : Type} (f : S -> S) : Task S unit :=
  fun s => (f s, Resolved tt).

Notation "m ;; k" := (bind m (fun _ => k))
  (at level 61, right associativity) : task_scope.

(** ** A fixture: timestamps as GitHub prints them

    [Date_parse_iso] is the time value of [YYYY-MM-DDTHH:MM:SSZ], the only
    format in the payloads; any other text is an invalid date.  It is the
    [Date_parse] of the examples; the server below is stated for any. *)

Definition digit_of (c : ascii) : option Z :=
  let n := Z.of_nat (nat_of_ascii c) in
  if (48 <=? n) && (n <=? 57) then Some (n - 48) else None.

Fixpoint digits_from (acc : Z) (s : string) : option Z :=
  match s with
  | EmptyString => Some acc
  | String c s' =>
      match digit_of c with
      | Some d => digits_from (10 * acc + d) s'
      | None => None
      end
  end.

Definition decimal_field (s : string) (start len : nat) : option Z :=
  let f := substring start len s in
  if (String.length f =? len)%nat then digits_from 0 f else None.

(** Days from 1970-01-01 to the given day of the proleptic Gregorian calendar. *)
Definition days_from_civil (y m d : Z) : Z :=
  let y' := if m <=? 2 then y - 1 else y in
  let era := y' / 400 in
  let yoe := y' - era * 400 in
  let doy := (153 * (if 2 <? m then m - 3 else m + 9) + 2) / 5 + d - 1 in
  let doe := yoe * 365 + yoe / 4 - yoe / 100 + doy in
  era * 146097 + doe - 719468.

Definition Date_parse_iso (s : string) : Number :=
  match decimal_field s 0 4, decimal_field s 5 2, decimal_field s 8 2,
        decimal_field s 11 2, decimal_field s 14 2, decimal_field s 17 2 with
  | Some y, Some mo, Some d, Some h, Some mi, Some se =>
      if ((substring 4 1 s =? "-") && (substring 7 1 s =? "-")
          && (substring 10 1 s =? "T") && (substring 13 1 s =? ":")
          && (substring 16 1 s =? ":") && (substring 19 2 s =? "Z"))%string
         && (1 <=? mo) && (mo <=? 12) && (1 <=? d) && (d <=? 31)
         && (h <=? 23) && (mi <=? 59) && (se <=? 59)
      then Some (((days_from_civil y mo d * 24 + h) * 60 + mi) * 60000 + se * 1000)
      else None
  | _, _, _, _, _, _ => None
  end.

(** ** A fixture: the repositories of one account

    [acme/api], [acme/web], [acme/cli] and [acme/docs] answer; [acme/gone]
    is a 404 and the run list of [acme/web] fails on the network.  The clock reads 2024-05-10T12:00:00Z
    in a zone twelve hours ahead of UTC. *)

Module Fixture.

Definition ok_json {A : Type} (a : A) : result (Response.t A) :=
  Resolved {| Response.ok := true; Response.status := 200;
              Response.statusText := "OK"; Response.text := "";
              Response.json := Resolved a |}.

Definition not_found {A : Type} : result (Response.t A) :=
  Resolved {| Response.ok := false; Response.status := 404;
              Response.statusText := "Not Found"; Response.text := "Not Found";
              Response.json := Rejected "Unexpected token N in JSON" |}.

Definition user (login : string) : User.t := {| User.login := login |}.

Definition review (login state : string) (submitted_at : option string)
  : Review.t :=
  {| Review.user := user login; Review.state := state;
     Review.submitted_at := submitted_at;
     Review.author_association := "MEMBER" |}.

Definition reviews_101 : list Review.t :=
  [ review "alice" "APPROVED" (Some "2024-05-02T09:00:00Z");
    review "bob" "COMMENTED" (Some "2024-05-02T10:00:00Z");
    review "carol" "CHANGES_REQUESTED" (Some "2024-05-02T11:00:00Z");
    review "dave" "PENDING" None;
    review "frank" "DISMISSED" (Some "2024-05-02T12:00:00Z") ].

Definition requested_101 : RequestedReviewers.t :=
  {| RequestedReviewers.users := Some [user "erin"];
     RequestedReviewers.teams :=
       Some [{| Team.slug := "core"; Team.name := "Core maintainers" |}] |}.

(** Pull request 7: alice approved, then her review was requested again. *)
Definition reviews_7 : list Review.t :=
  [ review "alice" "APPROVED" (Some "2024-05-02T09:00:00Z") ].

Definition requested_7 : RequestedReviewers.t :=
  {| RequestedReviewers.users := Some [user "alice"];
     RequestedReviewers.teams := Some [] |}.

Definition comment (id : Z) (created_at : string) : Comment.t :=
  {| Comment.id := id; Comment.created_at := created_at |}.

Definition T1 : string := "2024-05-03T08:00:00Z".
Definition T2 : string := "2024-05-04T08:00:00Z".
Definition T3 : string := "2024-05-05T08:00:00Z".

Definition pull (number : Z) (login created_at sha : string) : Pull.t :=
  {| Pull.id := 9000 + number; Pull.number := number;
     Pull.title := "Change " ++ Number_toString number;
     Pull.html_url := "https://github.com/acme/pull/" ++ Number_toString number;
     Pull.head := {| Branch.ref := "feature"; Branch.sha := sha |};
     Pull.base := {| Branch.ref := "main"; Branch.sha := "0000000000" |};
     Pull.created_at := created_at; Pull.updated_at := created_at;
     Pull.user := user login; Pull.draft := false; Pull.mergeable := None |}.

Definition pr101 : Pull.t := pull 101 "octocat" "2024-05-01T10:00:00Z" "aaaaaaaaaa".
Definition pr102 : Pull.t := pull 102 "hubot" "2024-05-07T10:00:00Z" "bbbbbbbbbb".
Definition pr7 : Pull.t := pull 7 "octocat" "2024-05-01T10:00:00Z" "cccccccccc".
Definition pr8 : Pull.t := pull 8 "octocat" "2024-05-06T10:00:00Z" "dddddddddd".
Definition pr21 : Pull.t := pull 21 "octocat" "2024-05-08T10:00:00Z" "eeeeeeeeee".
Definition pr31 : Pull.t := pull 31 "hubot" "2024-05-09T10:00:00Z" "ffffffffff".

Definition run (id : Z) (created_at : string) (head_branch : option string)
  (pull_requests : option (list Z)) : Run.t :=
  {| Run.id := id; Run.name := "CI"; Run.status := "completed";
     Run.conclusion := Some "success";
     Run.created_at := created_at; Run.updated_at := created_at;
     Run.html_url := "https://github.com/acme/actions/runs/" ++ Number_toString id;
     Run.head_branch := head_branch;
     Run.head_sha := Some "0123456789abcdef";
     Run.pull_requests := pull_requests |}.

Definition run_four_days_old : Run.t :=
  run 1 "2024-05-06T12:00:00Z" (Some "main") (Some []).
Definition run_two_days_old : Run.t :=
  run 2 "2024-05-08T12:00:00Z" (Some "main") (Some []).
Definition run_on_pull_ref : Run.t :=
  run 3 "2024-05-09T12:00:00Z" (Some "refs/pull/42/merge") (Some []).
Definition run_without_branch : Run.t :=
  run 4 "2024-05-09T13:00:00Z" None None.
Definition run_of_a_pull : Run.t :=
  run 5 "2024-05-09T14:00:00Z" (Some "feature") (Some [101]).

Definition actor_runs : Runs.t :=
  {| Runs.workflow_runs :=
       [ run_four_days_old; run_two_days_old; run_on_pull_ref;
         run_without_branch; run_of_a_pull ] |}.

Definition is_repo (owner repo o r : string) : bool :=
  ((owner =? o) && (repo =? r))%string.

Definition fetch (A : Type) (url : Url A) : result (Response.t A) :=
  match url in Url T return result (Response.t T) with
  | pulls_open o r =>
      if is_repo "acme" "api" o r then ok_json [pr101; pr102]
      else if is_repo "acme" "web" o r then ok_json [pr7; pr8]
      else if is_repo "acme" "cli" o r then ok_json [pr21]
      else if is_repo "acme" "docs" o r then ok_json [pr31]
      else not_found
  | pull_reviews o r n =>
      if is_repo "acme" "api" o r && (n =? 101) then ok_json reviews_101
      else if is_repo "acme" "web" o r && (n =? 7) then ok_json reviews_7
      else ok_json []
  | pull_requested_reviewers o r n =>
      if is_repo "acme" "api" o r && (n =? 101) then ok_json requested_101
      else if is_repo "acme" "web" o r && (n =? 7) then ok_json requested_7
      else ok_json {| RequestedReviewers.users := Some [];
                      RequestedReviewers.teams := Some [] |}
  | issue_comments o r n =>
      if is_repo "acme" "api" o r && (n =? 101)
      then ok_json [comment 1 T1; comment 3 T3]
      else if is_repo "acme" "web" o r && (n =? 8) then Rejected "socket hang up"
      else ok_json []
  | pull_comments o r n =>
      if is_repo "acme" "api" o r && (n =? 101) then ok_json [comment 2 T2]
      else ok_json []
  | runs_by_head_sha o r sha =>
      if (sha =? "aaaaaaaaaa")%string
      then ok_json {| Runs.workflow_runs := [run_two_days_old] |}
      else if (sha =? "cccccccccc")%string then not_found
      else ok_json {| Runs.workflow_runs := [] |}
  | runs_by_actor o r actor =>
      if is_repo "acme" "api" o r then ok_json actor_runs
      else if is_repo "acme" "web" o r then Rejected "read ECONNRESET"
      else not_found
  end.

Definition LocalTZA (t : Z) (isUTC : bool) : Z := 43200000.
Definition now : Z := 1715342400000.
Definition GITHUB_USERNAME : string := "octocat".
Definition REPOSITORIES : list string := ["acme/api"; "acme/gone"; "acme/web"].

End Fixture.

(** ** A second fixture: the same account on a bad day

    The requested reviewers cannot be fetched, a comment and a run carry a
    [created_at] that is no date, and everything else answers as in
    [Fixture]. *)

Module Outage.

Definition run_undated : Run.t :=
  Fixture.run 6 "yesterday" (Some "main") (Some []).

Definition actor_runs : Runs.t :=
  {| Runs.workflow_runs := [Fixture.run_two_days_old; run_undated] |}.

Definition fetch (A : Type) (url : Url A) : result (Response.t A) :=
  match url in Url T return result (Response.t T) with
  | pulls_open o r => Fixture.fetch _ (pulls_open o r)
  | pull_reviews o r n => Fixture.fetch _ (pull_reviews o r n)
  | pull_requested_reviewers o r n => Rejected "connect ETIMEDOUT"
  | issue_comments o r n =>
      if Fixture.is_repo "acme" "api" o r && (n =? 101)
      then Fixture.ok_json [Fixture.comment 1 "a while ago"]
      else Fixture.fetch _ (issue_comments o r n)
  | pull_comments o r n => Fixture.fetch _ (pull_comments o r n)
  | runs_by_head_sha o r sha => Fixture.fetch _ (runs_by_head_sha o r sha)
  | runs_by_actor o r actor =>
      if Fixture.is_repo "acme" "api" o r then Fixture.ok_json actor_runs
      else Fixture.fetch _ (runs_by_actor o r actor)
  end.

(** What the browser gets for the two feeds when the server answers the
    fixture. *)
Definition feed {A : Type} (status : Z) (payload : A) : result (Response.t A) :=
  Resolved {| Response.ok := (200 <=? status) && (status <=? 299);
              Response.status := status;
              Response.statusText := ""; Response.text := "";
              Response.json := Resolved payload |}.

Definition card_of_pull (repositories : list string) (pr : PullRequest.t) : string :=
  ("<div>" ++ PullRequest.title pr ++ "</div>")%string.

Definition card_of_run (workflow : StandaloneRun.t) : string :=
  ("<div>" ++ StandaloneRun.name workflow ++ "</div>")%string.

Definition blank_page : Page.t :=
  {| Page.refreshBtn_disabled := false;
     Page.refreshBtn_textContent := "Refresh";
     Page.username_textContent := "";
     Page.prs_container_innerHTML := "";
     Page.workflows_container_innerHTML := "";
     Page.repositories := [] |}.

End Outage.

(** ** A third fixture: the week the clocks go back

    The server runs on New York time.  Daylight saving time ends on
    2024-11-03 at 06:00 UTC, the offset going from four to five hours behind
    UTC; the clock reads 2024-11-05T12:00:00Z and the runs were created 72
    hours and 30 minutes earlier, all in the same second. *)

Module Autumn.

Definition dst_ends : Z := 1730613600000.

(** [LocalTZA(t, isUTC)]: [t] is a UTC time value when [isUTC] holds and a
    local one otherwise. *)
Definition LocalTZA (t : Z) (isUTC : bool) : Z :=
  if isUTC then (if t <? dst_ends then -14400000 else -18000000)
  else (if t <? dst_ends - 14400000 then -14400000 else -18000000).

Definition now : Z := 1730808000000.

Definition run_72h30_old : Run.t :=
  Fixture.run 7 "2024-11-02T11:30:00Z" (Some "main") (Some []).

(** Two runs of another repository created at that same second. *)
Definition run_same_time : Run.t :=
  Fixture.run 8 "2024-11-02T11:30:00Z" (Some "main") (Some []).
Definition run_same_time' : Run.t :=
  Fixture.run 9 "2024-11-02T11:30:00Z" (Some "release") None.

Definition fetch (A : Type) (url : Url A) : result (Response.t A) :=
  match url in Url T return result (Response.t T) with
  | pulls_open o r => Fixture.fetch _ (pulls_open o r)
  | pull_reviews o r n => Fixture.fetch _ (pull_reviews o r n)
  | pull_requested_reviewers o r n => Fixture.fetch _ (pull_requested_reviewers o r n)
  | issue_comments o r n => Fixture.fetch _ (issue_comments o r n)
  | pull_comments o r n => Fixture.fetch _ (pull_comments o r n)
  | runs_by_head_sha o r sha => Fixture.fetch _ (runs_by_head_sha o r sha)
  | runs_by_actor o r actor =>
      if Fixture.is_repo "acme" "api" o r
      then Fixture.ok_json {| Runs.workflow_runs := [run_72h30_old] |}
      else if Fixture.is_repo "acme" "cli" o r
      then Fixture.ok_json
             {| Runs.workflow_runs := [run_same_time; run_same_time'] |}
      else Fixture.fetch _ (runs_by_actor o r actor)
  end.

End Autumn.

(** ** The server *)

Section Server.

Set Default Proof Using "Type".

(** The hosting service as one refresh sees it. *)
Variable fetch : forall A : Type, Url A -> result (Response.t A).
Arguments fetch {A} _.

(** [new Date(s).getTime()] for a timestamp string [s]. *)
Variable Date_parse : string -> Number.

(** The offset of the server's time zone. *)
Variable LocalTZA : Z -> bool -> Z.

(** [process.env.GITHUB_USERNAME] and the split [process.env.REPOSITORIES]. *)
Variable GITHUB_USERNAME : string.
Variable REPOSITORIES : list string.

Definition githubRequest {A : Type} (url : Url A) : result A :=
  and_then (fetch url) (fun response =>
    if negb (Response.ok response) then
      Rejected ("GitHub API error: " ++ Number_toString (Response.status response)
                ++ " " ++ Response.statusText response
                ++ " - " ++ Response.text response)%string
    else Response.json response).

(** [(a, b) => new Date(b.created_at) - new Date(a.created_at)]. *)
Definition newest_first {A : Type} (created_at : A -> string) (a b : A) : Number :=
  Number_sub (Date_parse (created_at b)) (Date_parse (created_at a)).

(** [[owner, repoName] = repo.split('/')], as the two names print in a URL. *)
Definition owner_of (repo : string) : string :=
  template_of (nth_error (String_split "/" repo) 0).
Definition repoName_of (repo : string) : string :=
  template_of (nth_error (String_split "/" repo) 1).

(** *** [getPRReviews] *)

Definition review_entry (review : Review.t) : ReviewEntry.t :=
  {| ReviewEntry.user := User.login (Review.user review);
     ReviewEntry.submitted_at := Review.submitted_at review;
     ReviewEntry.author_association := Review.author_association review |}.

Definition requested_user (user : User.t) : RequestedUser.t :=
  {| RequestedUser.user := User.login user; RequestedUser.type := "user" |}.

Definition requested_team (team : Team.t) : RequestedTeam.t :=
  {| RequestedTeam.team := Team.slug team;
     RequestedTeam.name := Team.name team;
     RequestedTeam.type := "team" |}.

(** [reviews.filter(review => review.state === s).map(...)]. *)
Definition reviews_in_state (s : string) (reviews : list Review.t)
  : list ReviewEntry.t :=
  map review_entry (filter (fun review => (Review.state review =? s)%string) reviews).

(** [x || []]. *)
Definition or_empty {A : Type} (x : option (list A)) : list A :=
  match x with
  | Some l => l
  | None => []
  end.

Definition classify_reviews (reviews : list Review.t)
  (requestedReviewers : RequestedReviewers.t) : ReviewSummary.t :=
  let approving := reviews_in_state "APPROVED" reviews in
  let changesRequested := reviews_in_state "CHANGES_REQUESTED" reviews in
  let pending := reviews_in_state "PENDING" reviews in
  let requestedUsers := or_empty (RequestedReviewers.users requestedReviewers) in
  let requestedTeams := or_empty (RequestedReviewers.teams requestedReviewers) in
  {| ReviewSummary.approving := approving;
     ReviewSummary.changesRequested := changesRequested;
     ReviewSummary.pending := pending;
     ReviewSummary.requestedUsers := map requested_user requestedUsers;
     ReviewSummary.requestedTeams := map requested_team requestedTeams |}.

Definition getPRReviews (owner repo : string) (prNumber : Z)
  : result ReviewSummary.t :=
  catch
    (and_then
       (Promise_all2
          (githubRequest (pull_reviews owner repo prNumber))
          (githubRequest (pull_requested_reviewers owner repo prNumber)))
       (fun '(reviews, requestedReviewers) =>
          Resolved (classify_reviews reviews requestedReviewers)))
    (fun error => Resolved ReviewSummary.empty).

(** *** [getLatestPRComment] *)

(** The body of the [try] once both comment lists are there; [null] is [None].
    Reading [created_at] off a missing first element is a [TypeError]. *)
Definition latest_of (issueComments reviewComments : list Comment.t)
  : result (option string) :=
  let allComments := issueComments ++ reviewComments in
  if (List.length allComments =? 0)%nat then Resolved None
  else
    match Array_sort (newest_first Comment.created_at) allComments with
    | first :: _ => Resolved (Some (Comment.created_at first))
    | [] => Rejected "Cannot read properties of undefined (reading 'created_at')"
    end.

Definition getLatestPRComment (owner repo : string) (prNumber : Z)
  : result (option string) :=
  catch
    (and_then
       (Promise_all2
          (githubRequest (issue_comments owner repo prNumber))
          (githubRequest (pull_comments owner repo prNumber)))
       (fun '(issueComments, reviewComments) =>
          latest_of issueComments reviewComments))
    (fun error => Resolved None).

(** *** [getPRWorkflows] *)

Definition pr_workflow (run : Run.t) : PRWorkflow.t :=
  {| PRWorkflow.id := Run.id run;
     PRWorkflow.name := Run.name run;
     PRWorkflow.status := Run.status run;
     PRWorkflow.conclusion := Run.conclusion run;
     PRWorkflow.created_at := Run.created_at run;
     PRWorkflow.updated_at := Run.updated_at run;
     PRWorkflow.html_url := Run.html_url run |}.

Definition getPRWorkflows (owner repo : string) (prNumber : Z) (headSha : string)
  : result (list PRWorkflow.t) :=
  catch
    (and_then (githubRequest (runs_by_head_sha owner repo headSha))
       (fun workflows => Resolved (map pr_workflow (Runs.workflow_runs workflows))))
    (fun error => Resolved []).

(** *** [getUserWorkflows] *)

Definition standalone_run (repo : string) (run : Run.t) : StandaloneRun.t :=
  {| StandaloneRun.id := Run.id run;
     StandaloneRun.name := Run.name run;
     StandaloneRun.repository := repo;
     StandaloneRun.status := Run.status run;
     StandaloneRun.conclusion := Run.conclusion run;
     StandaloneRun.created_at := Run.created_at run;
     StandaloneRun.updated_at := Run.updated_at run;
     StandaloneRun.html_url := Run.html_url run;
     StandaloneRun.head_branch := Run.head_branch run;
     StandaloneRun.head_sha := option_map (substring 0 7) (Run.head_sha run) |}.

(** [run.head_branch && run.head_branch.startsWith('refs/pull/')]. *)
Definition is_pull_ref (head_branch : option string) : bool :=
  truthy head_branch &&
  match head_branch with
  | Some b => prefix "refs/pull/" b
  | None => false
  end.

(** The body of the loop over [workflows.workflow_runs]. *)
Definition visit_run (threeDaysAgo : Z) (repo : string) (run : Run.t)
  : Task (list StandaloneRun.t) unit :=
  let runDate := Date_parse (Run.created_at run) in
  if Number_lt runDate (Some threeDaysAgo) then ret tt
  else if is_pull_ref (Run.head_branch run) then ret tt
  else
    let associatedPRs := or_empty (Run.pull_requests run) in
    if (List.length associatedPRs =? 0)%nat then push (standalone_run repo run)
    else ret tt.

(** The body of the loop over [REPOSITORIES]. *)
Definition visit_repo_runs (threeDaysAgo : Z) (repo : string)
  : Task (list StandaloneRun.t) unit :=
  let owner := owner_of repo in
  let repoName := repoName_of repo in
  try_catch
    (workflows <- await (githubRequest (runs_by_actor owner repoName GITHUB_USERNAME)) ;;
     for_of (Runs.workflow_runs workflows) (visit_run threeDaysAgo repo))%task
    (fun error => ret tt).

(** [now] is the time value of [new Date()] at the call. *)
Definition getUserWorkflows (now : Z) : result (list StandaloneRun.t) :=
  let threeDaysAgo := Date_setDate_back LocalTZA 3 now in
  match for_of REPOSITORIES (visit_repo_runs threeDaysAgo) [] with
  | (allRuns, Resolved _) =>
      Resolved (Array_sort (newest_first StandaloneRun.created_at) allRuns)
  | (_, Rejected e) => Rejected e
  end.

(** *** [app.get('/api/prs')] *)

Definition pull_request (repo : string) (pr : Pull.t)
  (reviews : ReviewSummary.t) (latestComment : option string)
  (workflows : list PRWorkflow.t) : PullRequest.t :=
  {| PullRequest.id := Pull.id pr;
     PullRequest.number := Pull.number pr;
     PullRequest.title := Pull.title pr;
     PullRequest.repository := repo;
     PullRequest.html_url := Pull.html_url pr;
     PullRequest.head_branch := Branch.ref (Pull.head pr);
     PullRequest.base_branch := Branch.ref (Pull.base pr);
     PullRequest.created_at := Pull.created_at pr;
     PullRequest.updated_at := Pull.updated_at pr;
     PullRequest.author := User.login (Pull.user pr);
     PullRequest.draft := Pull.draft pr;
     PullRequest.mergeable := Pull.mergeable pr;
     PullRequest.reviews := reviews;
     PullRequest.latest_comment := latestComment;
     PullRequest.workflows := workflows |}.

(** The body of the loop over [userPRs]. *)
Definition visit_pr (repo owner repoName : string) (pr : Pull.t)
  : Task (list PullRequest.t) unit :=
  ('(reviews, latestComment, workflows) <-
     await (Promise_all3
              (getPRReviews owner repoName (Pull.number pr))
              (getLatestPRComment owner repoName (Pull.number pr))
              (getPRWorkflows owner repoName (Pull.number pr)
                 (Branch.sha (Pull.head pr)))) ;;
   push (pull_request repo pr reviews latestComment workflows))%task.

(** The body of the loop over [REPOSITORIES]. *)
Definition visit_repo (repo : string) : Task (list PullRequest.t) unit :=
  let owner := owner_of repo in
  let repoName := repoName_of repo in
  try_catch
    (prs <- await (githubRequest (pulls_open owner repoName)) ;;
     let userPRs :=
       filter (fun pr => (User.login (Pull.user pr) =? GITHUB_USERNAME)%string) prs in
     for_of userPRs (visit_pr repo owner repoName))%task
    (fun error => ret tt).

Definition api_prs : Reply.t :=
  match for_of REPOSITORIES visit_repo [] with
  | (allPRs, Resolved _) =>
      {| Reply.status := 200;
         Reply.body :=
           PullRequests (Array_sort (newest_first PullRequest.created_at) allPRs) |}
  | (_, Rejected error) =>
      {| Reply.status := 500; Reply.body := ErrorMessage "Failed to fetch PRs" |}
  end.

(** *** [app.get('/api/workflows')] *)

Definition api_workflows (now : Z) : WorkflowsReply.t :=
  match getUserWorkflows now with
  | Resolved workflows =>
      {| WorkflowsReply.status := 200;
         WorkflowsReply.body := StandaloneRuns workflows |}
  | Rejected error =>
      {| WorkflowsReply.status := 500;
         WorkflowsReply.body := WorkflowsError "Failed to fetch workflows" |}
  end.

(** *** [app.get('/api/debug')] *)

Definition api_debug : DebugReply.t :=
  match getPRReviews "aderant" "expert-suite" 119 with
  | Resolved reviews =>
      {| DebugReply.status := 200; DebugReply.body := DebugReviews reviews |}
  | Rejected error =>
      {| DebugReply.status := 500; DebugReply.body := DebugError error |}
  end.

(** *** Start-up

    [process.env.REPOSITORIES ? process.env.REPOSITORIES.split(',') : []]. *)
Definition REPOSITORIES_of_env (env : option string) : list string :=
  if truthy env then String_split "," (template_of env) else [].

(** ** The dashboard script *)

(** [date.getFullYear()] in the zone of the browser; [NaN] on an invalid
    date. *)
Variable Date_getFullYear : Number -> Number.

(** [date.toLocaleDateString('en-US', { month: 'short', day: 'numeric',
    year })], the flag telling whether [year] is ['numeric']. *)
Variable Date_toLocaleDateString : Number -> bool -> string.

(** [s.toUpperCase()]. *)
Variable String_toUpperCase : string -> string.

(** The two card templates, [createPRCard] with the [repositories] it reads
    off the object.  They are left open: the rendering below is the same for
    any HTML they produce. *)
Variable createPRCard : list string -> PullRequest.t -> string.
Variable createWorkflowCard : StandaloneRun.t -> string.

(** [now] is the time value of [new Date()] at the call. *)
Definition formatDate (now : Z) (dateString : string) : string :=
  let date := Date_parse dateString in
  let diffMs := Number_sub (Some now) date in
  let diffMins := Number_floor_div diffMs 60000 in
  let diffHours := Number_floor_div diffMs 3600000 in
  let diffDays := Number_floor_div diffMs 86400000 in
  if Number_lt diffMins (Some 1) then "just now"
  else if Number_lt diffMins (Some 60) then
    (template_of_Number diffMins ++ "m ago")%string
  else if Number_lt diffHours (Some 24) then
    (template_of_Number diffHours ++ "h ago")%string
  else if Number_lt diffDays (Some 7) then
    (template_of_Number diffDays ++ "d ago")%string
  else
    Date_toLocaleDateString date
      (Number_strict_neq (Date_getFullYear date) (Date_getFullYear (Some now))).

(** [<span class="status-icon status-...">], the shape of the five icons. *)
Definition status_icon (name : string) : string :=
  ("<span class=" ++ dq ++ "status-icon status-" ++ name ++ dq ++ "></span>")%string.

Definition getStatusIcon (status : string) (conclusion : option string) : string :=
  if ((status =? "in_progress") || (status =? "queued"))%string then
    status_icon "in_progress"
  else if (status =? "completed")%string then
    match conclusion with
    | Some c =>
        if (c =? "success")%string then status_icon "success"
        else if ((c =? "failure") || (c =? "timed_out"))%string then
          status_icon "failure"
        else if (c =? "cancelled")%string then status_icon "cancelled"
        else status_icon "pending"
    | None => status_icon "pending"
    end
  else status_icon "pending".

Definition getStatusText (status : string) (conclusion : option string) : string :=
  if (status =? "in_progress")%string then "In Progress"
  else if (status =? "queued")%string then "Queued"
  else if (status =? "completed")%string then
    match conclusion with
    | Some c =>
        if (c =? "success")%string then "Success"
        else if (c =? "failure")%string then "Failed"
        else if (c =? "cancelled")%string then "Cancelled"
        else if (c =? "timed_out")%string then "Timed Out"
        else "Completed"
    | None => "Completed"
    end
  else
    (String_toUpperCase (substring 0 1 status)
     ++ substring 1 (String.length status) status)%string.

(** The colour class of [createPRCard]:
    [`repo-${Math.min(this.repositories.indexOf(pr.repository) + 1, 8)}`]. *)
Definition repoClass (repositories : list string) (repository : string) : string :=
  let repoIndex := Array_indexOf repositories repository + 1 in
  ("repo-" ++ Number_toString (Z.min repoIndex 8))%string.

(** The two labels of the refresh button. *)
Definition loading_label : string := "‚è≥ Loading...".
Definition refresh_label : string := "üîÑ Refresh".

Definition load_error : string :=
  "Failed to load data. Please check your configuration and try again.".

Definition showLoading (show : bool) : Task Page.t unit :=
  modify (fun page =>
    {| Page.refreshBtn_disabled := show;
       Page.refreshBtn_textContent := if show then loading_label else refresh_label;
       Page.username_textContent := Page.username_textContent page;
       Page.prs_container_innerHTML := Page.prs_container_innerHTML page;
       Page.workflows_container_innerHTML := Page.workflows_container_innerHTML page;
       Page.repositories := Page.repositories page |}).

Definition error_message (message : string) : string :=
  ("<div class=" ++ dq ++ "error-message" ++ dq ++ ">" ++ message ++ "</div>")%string.

Definition showError (message : string) : Task Page.t unit :=
  modify (fun page =>
    {| Page.refreshBtn_disabled := Page.refreshBtn_disabled page;
       Page.refreshBtn_textContent := Page.refreshBtn_textContent page;
       Page.username_textContent := Page.username_textContent page;
       Page.prs_container_innerHTML := error_message message;
       Page.workflows_container_innerHTML := error_message message;
       Page.repositories := Page.repositories page |}).

Definition no_pull_requests : string :=
  ("
                <div class=" ++ dq ++ "empty-state" ++ dq ++ ">
                    <h3>No open pull requests</h3>
                    <p>All caught up! üéâ</p>
                </div>
            ")%string.

Definition no_workflow_runs : string :=
  ("
                <div class=" ++ dq ++ "empty-state" ++ dq ++ ">
                    <h3>No standalone workflow runs</h3>
                    <p>No recent workflow runs found that aren't associated with pull requests.</p>
                </div>
            ")%string.

Definition renderPRs (prs : list PullRequest.t) : Task Page.t unit :=
  modify (fun page =>
    {| Page.refreshBtn_disabled := Page.refreshBtn_disabled page;
       Page.refreshBtn_textContent := Page.refreshBtn_textContent page;
       Page.username_textContent := Page.username_textContent page;
       Page.prs_container_innerHTML :=
         if (List.length prs =? 0)%nat then no_pull_requests
         else Array_join (map (createPRCard (Page.repositories page)) prs);
       Page.workflows_container_innerHTML := Page.workflows_container_innerHTML page;
       Page.repositories := Page.repositories page |}).

Definition renderWorkflows (workflows : list StandaloneRun.t) : Task Page.t unit :=
  modify (fun page =>
    {| Page.refreshBtn_disabled := Page.refreshBtn_disabled page;
       Page.refreshBtn_textContent := Page.refreshBtn_textContent page;
       Page.username_textContent := Page.username_textContent page;
       Page.prs_container_innerHTML := Page.prs_container_innerHTML page;
       Page.workflows_container_innerHTML :=
         if (List.length workflows =? 0)%nat then no_workflow_runs
         else Array_join (map createWorkflowCard workflows);
       Page.repositories := Page.repositories page |}).

(** The two arguments are what [fetch('/api/prs')] and
    [fetch('/api/workflows')] settle to. *)
Definition loadData
  (prsFetch : result (Response.t (list PullRequest.t)))
  (workflowsFetch : result (Response.t (list StandaloneRun.t)))
  : Task Page.t unit :=
  (showLoading true ;;
   try_catch
     ('(prsResponse, workflowsResponse) <-
        await (Promise_all2 prsFetch workflowsFetch) ;;
      (if negb (Response.ok prsResponse) || negb (Response.ok workflowsResponse)
       then await (Rejected "Failed to fetch data")
       else ret tt) ;;
      prs <- await (Response.json prsResponse) ;;
      workflows <- await (Response.json workflowsResponse) ;;
      showLoading false ;;
      renderPRs prs ;;
      renderWorkflows workflows)
     (fun error => showError load_error))%task.

(** The argument is what [fetch('/api/config')] settles to. *)
Definition loadConfig (configFetch : result (Response.t Config.t))
  : Task Page.t unit :=
  (try_catch
     (response <- await configFetch ;;
      config <- await (Response.json response) ;;
      modify (fun page =>
        {| Page.refreshBtn_disabled := Page.refreshBtn_disabled page;
           Page.refreshBtn_textContent := Page.refreshBtn_textContent page;
           Page.username_textContent := ("@" ++ Config.username config)%string;
           Page.prs_container_innerHTML := Page.prs_container_innerHTML page;
           Page.workflows_container_innerHTML :=
             Page.workflows_container_innerHTML page;
           Page.repositories := Config.repositories config |}))
     (fun error => ret tt))%task.

(** [init], the listeners apart: the configuration, then the data. *)
Definition init
  (configFetch : result (Response.t Config.t))
  (prsFetch : result (Response.t (list PullRequest.t)))
  (workflowsFetch : result (Response.t (list StandaloneRun.t)))
  : Task Page.t unit :=
  (loadConfig configFetch ;; loadData prsFetch workflowsFetch)%task.

(** ** Vocabulary of the properties *)

(** What a task pushes when started on an empty array. *)
Definition pushed_by {X : Type} (m : Task (list X) unit) : list X := fst (m []).

(** A task that only ever pushes and never throws. *)
Definition appends {X : Type} (m : Task (list X) unit) : Prop :=
  forall s, m s = (s ++ pushed_by m, Resolved tt).

(** A timestamp string that [Date] can read. *)
Definition valid_date (s : string) : Prop := Date_parse s <> None.

Definition valid_created_at {A : Type} (created_at : A -> string) (a : A) : Prop :=
  valid_date (created_at a).

(** [a] was created at the same time as [b] or later. *)
Definition not_older {A : Type} (created_at : A -> string) (a b : A) : Prop :=
  match Date_parse (created_at a), Date_parse (created_at b) with
  | Some ta, Some tb => tb <= ta
  | _, _ => False
  end.

(** [a] was created at time [t]. *)
Definition created_at_time {A : Type} (created_at : A -> string) (t : Z) (a : A)
  : bool :=
  match Date_parse (created_at a) with
  | Some ta => ta =? t
  | None => false
  end.

(** The pull requests of [repo] that the loop goes through. *)
Definition userPRs_of (repo : string) : list Pull.t :=
  match githubRequest (pulls_open (owner_of repo) (repoName_of repo)) with
  | Resolved prs =>
      filter (fun pr => (User.login (Pull.user pr) =? GITHUB_USERNAME)%string) prs
  | Rejected _ => []
  end.

(** Everything the loop over [REPOSITORIES] has pushed when it ends. *)
Definition allPRs : list PullRequest.t :=
  flat_map (fun repo => pushed_by (visit_repo repo)) REPOSITORIES.

(** What upstream lists as open in [repo]; nothing when the request fails. *)
Definition open_pulls (repo : string) : list Pull.t :=
  match githubRequest (pulls_open (owner_of repo) (repoName_of repo)) with
  | Resolved prs => prs
  | Rejected _ => []
  end.

(** A pull request is known by its repository and its number. *)
Definition pr_key (p : PullRequest.t) : string * Z :=
  (PullRequest.repository p, PullRequest.number p).

(** The runs upstream lists for the user in [repo]; none when the request
    fails. *)
Definition actor_runs_of (repo : string) : list Run.t :=
  match githubRequest
          (runs_by_actor (owner_of repo) (repoName_of repo) GITHUB_USERNAME) with
  | Resolved workflows => Runs.workflow_runs workflows
  | Rejected _ => []
  end.

(** Everything the loop of [getUserWorkflows] has pushed when it ends. *)
Definition allRuns (threeDaysAgo : Z) : list StandaloneRun.t :=
  flat_map (fun repo => pushed_by (visit_repo_runs threeDaysAgo repo)) REPOSITORIES.

(** Who a review summary speaks of: a user by login, a team by slug. *)
Inductive Reviewer : Type :=
| a_user (login : string)
| a_team (slug : string).

Definition Reviewer_eqb (x y : Reviewer) : bool :=
  match x, y with
  | a_user l, a_user l' => (l =? l')%string
  | a_team g, a_team g' => (g =? g')%string
  | _, _ => false
  end.

Definition appears (who : Reviewer) (sequence : list Reviewer) : bool :=
  existsb (Reviewer_eqb who) sequence.

(** The five sequences of a summary, as the reviewers they name. *)
Definition sequences_of (summary : ReviewSummary.t) : list (list Reviewer) :=
  [ map a_user (map ReviewEntry.user (ReviewSummary.approving summary));
    map a_user (map ReviewEntry.user (ReviewSummary.changesRequested summary));
    map a_user (map ReviewEntry.user (ReviewSummary.pending summary));
    map a_user (map RequestedUser.user (ReviewSummary.requestedUsers summary));
    map a_team (map RequestedTeam.team (ReviewSummary.requestedTeams summary)) ].

(** In how many of the five sequences [who] appears. *)
Definition sequences_containing (who : Reviewer) (summary : ReviewSummary.t) : nat :=
  List.length (filter (appears who) (sequences_of summary)).

Definition in_one_sequence_at_most (summary : ReviewSummary.t) : Prop :=
  forall who, (sequences_containing who summary <= 1)%nat.

(** A review in one of the three states that [getPRReviews] keeps. *)
Definition classified (review : Review.t) : Prop :=
  In (Review.state review) ["APPROVED"; "CHANGES_REQUESTED"; "PENDING"].

(** The two upstream answers name nobody twice: the kept reviews of one user
    all have one state, and nobody whose review is requested has a kept
    review. *)
Definition upstream_disjoint (reviews : list Review.t)
  (requestedReviewers : RequestedReviewers.t) : Prop :=
  (forall r1 r2,
      In r1 reviews -> In r2 reviews -> classified r1 -> classified r2 ->
      User.login (Review.user r1) = User.login (Review.user r2) ->
      Review.state r1 = Review.state r2) /\
  (forall r u,
      In r reviews -> classified r ->
      In u (or_empty (RequestedReviewers.users requestedReviewers)) ->
      User.login u <> User.login (Review.user r)).

(** The entry a review adds to the list of state [s]: one or none. *)
Definition entry_in_state (s : string) (review : Review.t) : list ReviewEntry.t :=
  if (Review.state review =? s)%string then [review_entry review] else [].

(** The character [sep] does not occur in [s]. *)
Fixpoint lacks (sep : ascii) (s : string) : bool :=
  match s with
  | EmptyString => true
  | String c s' => negb (Ascii.eqb c sep) && lacks sep s'
  end.

(** A feed of the page arrived: the request resolved to an answer that is
    [ok] and whose JSON is [a]. *)
Definition feed_loaded {A : Type} (feed : result (Response.t A)) (a : A) : Prop :=
  exists response,
    feed = Resolved response /\
    Response.ok response = true /\
    Response.json response = Resolved a.

(** A feed of the page did not arrive: the request failed, or the answer is
    not [ok], or its body does not parse. *)
Definition feed_failed {A : Type} (feed : result (Response.t A)) : Prop :=
  match feed with
  | Rejected _ => True
  | Resolved response =>
      Response.ok response = false \/
      exists e, Response.json response = Rejected e
  end.

(** The page after a load that went through. *)
Definition page_loaded (prs : list PullRequest.t) (workflows : list StandaloneRun.t)
  (page : Page.t) : Page.t :=
  {| Page.refreshBtn_disabled := false;
     Page.refreshBtn_textContent := refresh_label;
     Page.username_textContent := Page.username_textContent page;
     Page.prs_container_innerHTML :=
       if (List.length prs =? 0)%nat then no_pull_requests
       else Array_join (map (createPRCard (Page.repositories page)) prs);
     Page.workflows_container_innerHTML :=
       if (List.length workflows =? 0)%nat then no_workflow_runs
       else Array_join (map createWorkflowCard workflows);
     Page.repositories := Page.repositories page |}.

(** The page after a load that failed. *)
Definition page_failed (page : Page.t) : Page.t :=
  {| Page.refreshBtn_disabled := true;
     Page.refreshBtn_textContent := loading_label;
     Page.username_textContent := Page.username_textContent page;
     Page.prs_container_innerHTML := error_message load_error;
     Page.workflows_container_innerHTML := error_message load_error;
     Page.repositories := Page.repositories page |}.

(** The page once a configuration was read. *)
Definition page_configured (config : Config.t) (page : Page.t) : Page.t :=
  {| Page.refreshBtn_disabled := Page.refreshBtn_disabled page;
     Page.refreshBtn_textContent := Page.refreshBtn_textContent page;
     Page.username_textContent := ("@" ++ Config.username config)%string;
     Page.prs_container_innerHTML := Page.prs_container_innerHTML page;
     Page.workflows_container_innerHTML := Page.workflows_container_innerHTML page;
     Page.repositories := Config.repositories config |}.

(** The browser received a reply of the server with this status and this
    JSON body. *)
Definition served_as {A : Type} (status : Z) (payload : A)
  (feed : result (Response.t A)) : Prop :=
  exists response,
    feed = Resolved response /\
    Response.status response = status /\
    Response.ok response = ((200 <=? status) && (status <=? 299)) /\
    Response.json response = Resolved payload.

(** The three tests of the loop of [getUserWorkflows] let [run] through. *)
Definition passes_filters (threeDaysAgo : Z) (run : Run.t) : bool :=
  negb (Number_lt (Date_parse (Run.created_at run)) (Some threeDaysAgo))
  && negb (is_pull_ref (Run.head_branch run))
  && (List.length (or_empty (Run.pull_requests run)) =? 0)%nat.

(** ** Facts about the prelude *)

Lemma appends_ret {X : Type} : appends (@ret (list X) unit tt).
Proof.
  intro s. unfold pushed_by, ret. simpl. now rewrite app_nil_r.
Qed.

Lemma appends_push {X : Type} (x : X) : appends (push x).
Proof.
  intro s. reflexivity.
Qed.

Lemma for_of_appends {X Y : Type} (body : Y -> Task (list X) unit) (l : list Y) :
  (forall y, In y l -> appends (body y)) ->
  forall s,
    for_of l body s = (s ++ flat_map (fun y => pushed_by (body y)) l, Resolved tt).
Proof.
  induction l as [|y l IH]; intros Hbody s; simpl.
  - unfold ret. now rewrite app_nil_r.
  - unfold bind. rewrite (Hbody y (or_introl eq_refl)).
    rewrite IH by (intros z Hz; apply Hbody; now right).
    now rewrite app_assoc.
Qed.

Lemma appends_for_of {X Y : Type} (body : Y -> Task (list X) unit) (l : list Y) :
  (forall y, In y l -> appends (body y)) ->
  appends (for_of l body).
Proof.
  intros Hbody s. unfold pushed_by.
  now rewrite !(for_of_appends body l Hbody).
Qed.

Lemma pushed_by_for_of {X Y : Type} (body : Y -> Task (list X) unit) (l : list Y) :
  (forall y, In y l -> appends (body y)) ->
  pushed_by (for_of l body) = flat_map (fun y => pushed_by (body y)) l.
Proof.
  intros Hbody. unfold pushed_by at 1.
  now rewrite (for_of_appends body l Hbody).
Qed.

Lemma sort_insert_perm {A : Type} (cmp : A -> A -> Number) (x : A) (l : list A) :
  Permutation (sort_insert cmp x l) (x :: l).
Proof.
  induction l as [|y l IH]; simpl.
  - apply Permutation_refl.
  - destruct (SortCompare cmp x y <=? 0).
    + apply Permutation_refl.
    + eapply perm_trans; [apply perm_skip, IH | apply perm_swap].
Qed.

Lemma Array_sort_perm {A : Type} (cmp : A -> A -> Number) (l : list A) :
  Permutation (Array_sort cmp l) l.
Proof.
  induction l as [|x l IH]; simpl.
  - constructor.
  - eapply perm_trans; [apply sort_insert_perm | now apply perm_skip].
Qed.

Lemma Array_sort_In {A : Type} (cmp : A -> A -> Number) (l : list A) (a : A) :
  In a (Array_sort cmp l) <-> In a l.
Proof.
  split; apply Permutation_in;
    [apply Array_sort_perm | apply Permutation_sym, Array_sort_perm].
Qed.

Section NewestFirst.
Context {A : Type} (created_at : A -> string).

Lemma SortCompare_newest_first (a b : A) (ta tb : Z) :
  Date_parse (created_at a) = Some ta ->
  Date_parse (created_at b) = Some tb ->
  SortCompare (newest_first created_at) a b = tb - ta.
Proof.
  intros Ha Hb. unfold SortCompare, newest_first. now rewrite Ha, Hb.
Qed.

Lemma sort_insert_sorted (x : A) (l : list A) :
  valid_created_at created_at x -> Forall (valid_created_at created_at) l ->
  StronglySorted (not_older created_at) l ->
  StronglySorted (not_older created_at) (sort_insert (newest_first created_at) x l).
Proof.
  intros Hx. unfold valid_created_at, valid_date in Hx.
  destruct (Date_parse (created_at x)) as [tx|] eqn:Ex; [clear Hx|congruence].
  induction l as [|y l IH]; intros Hl Hs; simpl.
  - repeat constructor.
  - inversion Hl as [|? ? Hy Hl']; subst. inversion Hs as [|? ? Hs' Hall]; subst.
    unfold valid_created_at, valid_date in Hy.
    destruct (Date_parse (created_at y)) as [ty|] eqn:Ey; [clear Hy|congruence].
    rewrite (SortCompare_newest_first x y tx ty Ex Ey).
    destruct (ty - tx <=? 0) eqn:Eord.
    + apply Z.leb_le in Eord. constructor; [assumption|].
      constructor.
      * unfold not_older. rewrite Ex, Ey. lia.
      * eapply Forall_impl; [|exact Hall]. intros z Hz.
        unfold not_older in *. rewrite Ex. rewrite Ey in Hz.
        destruct (Date_parse (created_at z)); [lia|assumption].
    + apply Z.leb_gt in Eord. constructor; [now apply IH|].
      eapply Permutation_Forall; [apply Permutation_sym, sort_insert_perm|].
      constructor; [|assumption].
      unfold not_older. rewrite Ex, Ey. lia.
Qed.

Lemma Array_sort_sorted (l : list A) :
  Forall (valid_created_at created_at) l ->
  StronglySorted (not_older created_at) (Array_sort (newest_first created_at) l).
Proof.
  induction l as [|x l IH]; intros Hl; simpl.
  - constructor.
  - inversion Hl; subst. apply sort_insert_sorted; auto.
    eapply Permutation_Forall; [apply Permutation_sym, Array_sort_perm|assumption].
Qed.

Lemma sort_insert_stable (t : Z) (x : A) (l : list A) :
  filter (created_at_time created_at t) (sort_insert (newest_first created_at) x l)
  = filter (created_at_time created_at t) (x :: l).
Proof.
  induction l as [|y l IH]; [reflexivity|].
  cbn [sort_insert].
  destruct (SortCompare (newest_first created_at) x y <=? 0) eqn:Eord;
    [reflexivity|].
  apply Z.leb_gt in Eord.
  cbn [filter] in *. rewrite IH.
  unfold SortCompare, newest_first, Number_sub in Eord.
  unfold created_at_time.
  destruct (Date_parse (created_at y)) as [ty|]; [|lia].
  destruct (Date_parse (created_at x)) as [tx|]; [|lia].
  destruct (tx =? t) eqn:Ex, (ty =? t) eqn:Ey; try reflexivity.
  apply Z.eqb_eq in Ex, Ey. lia.
Qed.

Lemma Array_sort_stable (t : Z) (l : list A) :
  filter (created_at_time created_at t) (Array_sort (newest_first created_at) l)
  = filter (created_at_time created_at t) l.
Proof.
  induction l as [|x l IH]; [reflexivity|].
  cbn [Array_sort fold_right]. rewrite sort_insert_stable.
  cbn [filter]. fold (Array_sort (newest_first created_at) l). now rewrite IH.
Qed.

End NewestFirst.

(** ** Facts about the helpers *)

Lemma getPRReviews_classifies (owner repo : string) (prNumber : Z)
  (reviews : list Review.t) (requestedReviewers : RequestedReviewers.t) :
  githubRequest (pull_reviews owner repo prNumber) = Resolved reviews ->
  githubRequest (pull_requested_reviewers owner repo prNumber)
  = Resolved requestedReviewers ->
  getPRReviews owner repo prNumber
  = Resolved (classify_reviews reviews requestedReviewers).
Proof.
  intros Hreviews Hrequested. unfold getPRReviews.
  now rewrite Hreviews, Hrequested.
Qed.

Lemma getPRReviews_resolves (owner repo : string) (prNumber : Z) :
  exists summary, getPRReviews owner repo prNumber = Resolved summary.
Proof.
  unfold getPRReviews.
  destruct (githubRequest (pull_reviews owner repo prNumber));
    destruct (githubRequest (pull_requested_reviewers owner repo prNumber));
    simpl; eauto.
Qed.

Lemma getLatestPRComment_resolves (owner repo : string) (prNumber : Z) :
  exists latest, getLatestPRComment owner repo prNumber = Resolved latest.
Proof.
  unfold getLatestPRComment.
  destruct (githubRequest (issue_comments owner repo prNumber)) as [ic|];
    destruct (githubRequest (pull_comments owner repo prNumber)) as [rc|];
    simpl; eauto.
  destruct (latest_of ic rc); simpl; eauto.
Qed.

Lemma getPRWorkflows_resolves (owner repo : string) (prNumber : Z) (sha : string) :
  exists workflows, getPRWorkflows owner repo prNumber sha = Resolved workflows.
Proof.
  unfold getPRWorkflows.
  destruct (githubRequest (runs_by_head_sha owner repo sha)); simpl; eauto.
Qed.

(** ** Facts about [/api/prs] *)

Lemma visit_pr_pushes (repo owner repoName : string) (pr : Pull.t) :
  exists reviews latestComment workflows,
    getPRReviews owner repoName (Pull.number pr) = Resolved reviews /\
    getLatestPRComment owner repoName (Pull.number pr) = Resolved latestComment /\
    getPRWorkflows owner repoName (Pull.number pr) (Branch.sha (Pull.head pr))
    = Resolved workflows /\
    forall s,
      visit_pr repo owner repoName pr s
      = (s ++ [pull_request repo pr reviews latestComment workflows], Resolved tt).
Proof.
  destruct (getPRReviews_resolves owner repoName (Pull.number pr)) as [rv Hrv].
  destruct (getLatestPRComment_resolves owner repoName (Pull.number pr)) as [lc Hlc].
  destruct (getPRWorkflows_resolves owner repoName (Pull.number pr)
              (Branch.sha (Pull.head pr))) as [wf Hwf].
  exists rv, lc, wf. repeat split; try assumption.
  intro s. unfold visit_pr, bind, await. now rewrite Hrv, Hlc, Hwf.
Qed.

Lemma visit_pr_appends (repo owner repoName : string) (pr : Pull.t) :
  appends (visit_pr repo owner repoName pr).
Proof.
  destruct (visit_pr_pushes repo owner repoName pr) as (rv & lc & wf & _ & _ & _ & H).
  intro s. unfold pushed_by. now rewrite !H.
Qed.

Lemma visit_repo_pushes (repo : string) (s : list PullRequest.t) :
  visit_repo repo s
  = (s ++ flat_map
            (fun pr => pushed_by (visit_pr repo (owner_of repo) (repoName_of repo) pr))
            (userPRs_of repo),
     Resolved tt).
Proof.
  unfold visit_repo, userPRs_of, try_catch, bind, await.
  destruct (githubRequest (pulls_open (owner_of repo) (repoName_of repo)))
    as [prs|e].
  - rewrite for_of_appends by (intros; apply visit_pr_appends). reflexivity.
  - simpl. unfold ret. now rewrite app_nil_r.
Qed.

Lemma visit_repo_appends (repo : string) : appends (visit_repo repo).
Proof.
  intro s. unfold pushed_by. now rewrite !visit_repo_pushes.
Qed.

Lemma pushed_by_visit_repo (repo : string) :
  pushed_by (visit_repo repo)
  = flat_map
      (fun pr => pushed_by (visit_pr repo (owner_of repo) (repoName_of repo) pr))
      (userPRs_of repo).
Proof.
  unfold pushed_by at 1. now rewrite visit_repo_pushes.
Qed.

Lemma api_prs_reply :
  api_prs
  = {| Reply.status := 200;
       Reply.body :=
         PullRequests (Array_sort (newest_first PullRequest.created_at) allPRs) |}.
Proof.
  unfold api_prs.
  now rewrite for_of_appends by (intros; apply visit_repo_appends).
Qed.

Lemma In_allPRs (p : PullRequest.t) :
  In p allPRs <->
  exists repo pr,
    In repo REPOSITORIES /\ In pr (userPRs_of repo) /\
    In p (pushed_by (visit_pr repo (owner_of repo) (repoName_of repo) pr)).
Proof.
  unfold allPRs. rewrite in_flat_map. split.
  - intros (repo & Hrepo & Hp). rewrite pushed_by_visit_repo, in_flat_map in Hp.
    destruct Hp as (pr & Hpr & Hp). eauto.
  - intros (repo & pr & Hrepo & Hpr & Hp). exists repo. split; [assumption|].
    rewrite pushed_by_visit_repo, in_flat_map. eauto.
Qed.

Lemma pushed_by_visit_pr (repo owner repoName : string) (pr : Pull.t) :
  exists reviews latestComment workflows,
    pushed_by (visit_pr repo owner repoName pr)
    = [pull_request repo pr reviews latestComment workflows].
Proof.
  destruct (visit_pr_pushes repo owner repoName pr) as (rv & lc & wf & _ & _ & _ & H).
  exists rv, lc, wf. unfold pushed_by. now rewrite H.
Qed.

Lemma userPRs_of_open_pulls (repo : string) :
  userPRs_of repo
  = filter (fun pr => (User.login (Pull.user pr) =? GITHUB_USERNAME)%string)
      (open_pulls repo).
Proof.
  unfold userPRs_of, open_pulls.
  now destruct (githubRequest (pulls_open (owner_of repo) (repoName_of repo))).
Qed.

Lemma In_userPRs_of (repo : string) (pr : Pull.t) :
  In pr (userPRs_of repo) <->
  exists prs,
    githubRequest (pulls_open (owner_of repo) (repoName_of repo)) = Resolved prs /\
    In pr prs /\ User.login (Pull.user pr) = GITHUB_USERNAME.
Proof.
  unfold userPRs_of.
  destruct (githubRequest (pulls_open (owner_of repo) (repoName_of repo)))
    as [prs|e]; simpl.
  - rewrite filter_In, String.eqb_eq. split.
    + intros [Hin Hlogin]. exists prs. auto.
    + intros (prs' & Heq & Hin & Hlogin). injection Heq as <-. auto.
  - split; [intros []|]. intros (prs' & Heq & _). discriminate.
Qed.

Lemma allPRs_origin (p : PullRequest.t) :
  In p allPRs ->
  exists repo pr reviews latestComment workflows,
    In repo REPOSITORIES /\ In pr (userPRs_of repo) /\
    p = pull_request repo pr reviews latestComment workflows.
Proof.
  rewrite In_allPRs. intros (repo & pr & Hrepo & Hpr & Hp).
  destruct (pushed_by_visit_pr repo (owner_of repo) (repoName_of repo) pr)
    as (rv & lc & wf & Heq).
  rewrite Heq in Hp. destruct Hp as [<-|[]].
  exists repo, pr, rv, lc, wf. auto.
Qed.

Lemma allPRs_complete (repo : string) (pr : Pull.t) :
  In repo REPOSITORIES -> In pr (userPRs_of repo) ->
  exists reviews latestComment workflows,
    getPRReviews (owner_of repo) (repoName_of repo) (Pull.number pr)
    = Resolved reviews /\
    getLatestPRComment (owner_of repo) (repoName_of repo) (Pull.number pr)
    = Resolved latestComment /\
    getPRWorkflows (owner_of repo) (repoName_of repo) (Pull.number pr)
      (Branch.sha (Pull.head pr)) = Resolved workflows /\
    In (pull_request repo pr reviews latestComment workflows) allPRs.
Proof.
  intros Hrepo Hpr.
  destruct (visit_pr_pushes repo (owner_of repo) (repoName_of repo) pr)
    as (rv & lc & wf & Hrv & Hlc & Hwf & Hpush).
  exists rv, lc, wf. repeat split; try assumption.
  apply In_allPRs. exists repo, pr. repeat split; try assumption.
  unfold pushed_by. rewrite Hpush. now left.
Qed.

Lemma filter_flat_map {X Y : Type} (f : Y -> bool) (g : X -> list Y) (l : list X) :
  filter f (flat_map g l) = flat_map (fun x => filter f (g x)) l.
Proof.
  induction l as [|x l IH]; [reflexivity|].
  simpl. now rewrite filter_app, IH.
Qed.

Lemma map_flat_map {X Y W : Type} (f : Y -> W) (g : X -> list Y) (l : list X) :
  map f (flat_map g l) = flat_map (fun x => map f (g x)) l.
Proof.
  induction l as [|x l IH]; [reflexivity|].
  simpl. now rewrite map_app, IH.
Qed.

Lemma pr_keys_of_repo (repo : string) :
  map pr_key (pushed_by (visit_repo repo))
  = map (fun pr => (repo, Pull.number pr)) (userPRs_of repo).
Proof.
  rewrite pushed_by_visit_repo.
  induction (userPRs_of repo) as [|pr l IH]; [reflexivity|].
  simpl. rewrite map_app, IH.
  destruct (pushed_by_visit_pr repo (owner_of repo) (repoName_of repo) pr)
    as (rv & lc & wf & ->).
  reflexivity.
Qed.

Lemma pr_keys_at_time_of_repo (t : Z) (repo : string) :
  map pr_key
    (filter (created_at_time PullRequest.created_at t) (pushed_by (visit_repo repo)))
  = map (fun pr => (repo, Pull.number pr))
      (filter (created_at_time Pull.created_at t) (userPRs_of repo)).
Proof.
  rewrite pushed_by_visit_repo.
  induction (userPRs_of repo) as [|pr l IH]; [reflexivity|].
  cbn [flat_map]. rewrite filter_app, map_app, IH.
  destruct (pushed_by_visit_pr repo (owner_of repo) (repoName_of repo) pr)
    as (rv & lc & wf & ->).
  cbn [filter].
  replace (created_at_time PullRequest.created_at t (pull_request repo pr rv lc wf))
    with (created_at_time Pull.created_at t pr) by reflexivity.
  now destruct (created_at_time Pull.created_at t pr).
Qed.

(** ** Properties of [/api/prs] *)

(** C6. When the request for the open pull requests of one repository fails
    (a 404, say), the route still answers 200: visiting that repository
    leaves [allPRs] as it was and goes on, no pull request of the reply
    belongs to it, and every pull request of the configured user that another
    configured repository lists is in the reply, with the results of its
    three helpers. *)
Theorem api_prs_survives_failed_repository (failing : string) (e : Error) :
  githubRequest (pulls_open (owner_of failing) (repoName_of failing)) = Rejected e ->
  (forall s, visit_repo failing s = (s, Resolved tt)) /\
  exists body,
    api_prs = {| Reply.status := 200; Reply.body := PullRequests body |} /\
    (forall p, In p body -> PullRequest.repository p <> failing) /\
    (forall other prs pr,
        In other REPOSITORIES ->
        githubRequest (pulls_open (owner_of other) (repoName_of other))
        = Resolved prs ->
        In pr prs ->
        User.login (Pull.user pr) = GITHUB_USERNAME ->
        exists reviews latestComment workflows,
          getPRReviews (owner_of other) (repoName_of other) (Pull.number pr)
          = Resolved reviews /\
          getLatestPRComment (owner_of other) (repoName_of other) (Pull.number pr)
          = Resolved latestComment /\
          getPRWorkflows (owner_of other) (repoName_of other) (Pull.number pr)
            (Branch.sha (Pull.head pr)) = Resolved workflows /\
          In (pull_request other pr reviews latestComment workflows) body).
Proof.
  intros Hfail.
  assert (Hnone : userPRs_of failing = []) by (unfold userPRs_of; now rewrite Hfail).
  split.
  - intro s. rewrite visit_repo_pushes, Hnone. simpl. now rewrite app_nil_r.
  - eexists. split; [apply api_prs_reply|]. split.
    + intros p Hp. apply Array_sort_In, allPRs_origin in Hp.
      destruct Hp as (repo & pr & rv & lc & wf & _ & Hpr & ->). simpl.
      intros ->. rewrite Hnone in Hpr. contradiction.
    + intros other prs pr Hother Hprs Hpr Hlogin.
      destruct (allPRs_complete other pr Hother) as (rv & lc & wf & H1 & H2 & H3 & H4).
      { apply In_userPRs_of. eauto. }
      exists rv, lc, wf. repeat split; try assumption.
      now apply Array_sort_In.
Qed.

(** C7. When the creation times of the user's pull requests are readable
    dates, the reply lists the pull requests newest first, and the pull
    requests sharing one creation time come in the order of [REPOSITORIES]
    (and, inside a repository, in the order upstream lists them): the
    records of the reply created at a time [t] are those each repository
    contributes, repository after repository. *)
Theorem api_prs_newest_first_stable :
  (forall repo pr,
      In repo REPOSITORIES -> In pr (userPRs_of repo) ->
      valid_date (Pull.created_at pr)) ->
  exists body,
    api_prs = {| Reply.status := 200; Reply.body := PullRequests body |} /\
    StronglySorted (not_older PullRequest.created_at) body /\
    (forall t,
        filter (created_at_time PullRequest.created_at t) body
        = flat_map
            (fun repo =>
               filter (created_at_time PullRequest.created_at t)
                 (pushed_by (visit_repo repo)))
            REPOSITORIES) /\
    (forall t,
        map pr_key (filter (created_at_time PullRequest.created_at t) body)
        = flat_map
            (fun repo =>
               map (fun pr => (repo, Pull.number pr))
                 (filter (created_at_time Pull.created_at t) (userPRs_of repo)))
            REPOSITORIES).
Proof.
  intros Hvalid. eexists. split; [apply api_prs_reply|].
  assert (Hstable : forall t,
             filter (created_at_time PullRequest.created_at t)
               (Array_sort (newest_first PullRequest.created_at) allPRs)
             = flat_map
                 (fun repo =>
                    filter (created_at_time PullRequest.created_at t)
                      (pushed_by (visit_repo repo)))
                 REPOSITORIES).
  { intro t. rewrite Array_sort_stable. apply filter_flat_map. }
  split; [|split].
  - apply Array_sort_sorted. apply Forall_forall. intros p Hp.
    apply allPRs_origin in Hp.
    destruct Hp as (repo & pr & rv & lc & wf & Hrepo & Hpr & ->).
    unfold valid_created_at. cbn [PullRequest.created_at pull_request].
    now apply (Hvalid repo).
  - exact Hstable.
  - intro t. rewrite Hstable, map_flat_map.
    apply flat_map_ext. intro repo. apply pr_keys_at_time_of_repo.
Qed.

(** C8. The reply holds the pull requests whose author is the configured
    user and no other: each of its records has that author, its records are,
    by repository and number, the upstream pull requests passing the author
    filter, and with two repositories of one pull request each, one by the
    user and one by somebody else, the reply is the user's pull request
    alone, under its own repository. *)
Theorem api_prs_only_user_prs :
  exists body,
    api_prs = {| Reply.status := 200; Reply.body := PullRequests body |} /\
    (forall p, In p body -> PullRequest.author p = GITHUB_USERNAME) /\
    Permutation
      (map pr_key body)
      (flat_map
         (fun repo =>
            map (fun pr => (repo, Pull.number pr))
              (filter
                 (fun pr => (User.login (Pull.user pr) =? GITHUB_USERNAME)%string)
                 (open_pulls repo)))
         REPOSITORIES) /\
    (forall mine theirs pr_mine pr_theirs,
        REPOSITORIES = [mine; theirs] \/ REPOSITORIES = [theirs; mine] ->
        githubRequest (pulls_open (owner_of mine) (repoName_of mine))
        = Resolved [pr_mine] ->
        githubRequest (pulls_open (owner_of theirs) (repoName_of theirs))
        = Resolved [pr_theirs] ->
        User.login (Pull.user pr_mine) = GITHUB_USERNAME ->
        User.login (Pull.user pr_theirs) <> GITHUB_USERNAME ->
        exists reviews latestComment workflows,
          body = [pull_request mine pr_mine reviews latestComment workflows]).
Proof.
  eexists. split; [apply api_prs_reply|]. split; [|split].
  - intros p Hp. apply Array_sort_In, allPRs_origin in Hp.
    destruct Hp as (repo & pr & rv & lc & wf & _ & Hpr & ->). simpl.
    apply In_userPRs_of in Hpr. now destruct Hpr as (prs & _ & _ & Hlogin).
  - eapply perm_trans; [apply Permutation_map, Array_sort_perm|].
    unfold allPRs. rewrite map_flat_map.
    erewrite flat_map_ext; [apply Permutation_refl|].
    intro repo. now rewrite pr_keys_of_repo, userPRs_of_open_pulls.
  - intros mine theirs pr_mine pr_theirs Hrepos Hmine Htheirs Hlogin Hother.
    assert (Emine : userPRs_of mine = [pr_mine]).
    { unfold userPRs_of. rewrite Hmine. simpl.
      now rewrite (proj2 (String.eqb_eq _ _) Hlogin). }
    assert (Etheirs : userPRs_of theirs = []).
    { unfold userPRs_of. rewrite Htheirs. simpl.
      now rewrite (proj2 (String.eqb_neq _ _) Hother). }
    destruct (pushed_by_visit_pr mine (owner_of mine) (repoName_of mine) pr_mine)
      as (rv & lc & wf & Hpush).
    exists rv, lc, wf. unfold allPRs.
    destruct Hrepos as [-> | ->]; simpl;
      rewrite !pushed_by_visit_repo, Emine, Etheirs; simpl; now rewrite Hpush.
Qed.

(** C9. Whatever the upstream requests do (each may fail or answer, for the
    pull-request lists as for the reviews, comments and workflow runs of each
    pull request), the [try] block of the route runs to its end without
    throwing, and the reply is a 200 carrying an array of pull requests. *)
Theorem api_prs_never_500 :
  snd (for_of REPOSITORIES visit_repo []) = Resolved tt /\
  Reply.status api_prs = 200 /\
  exists body, Reply.body api_prs = PullRequests body.
Proof.
  split.
  - now rewrite for_of_appends by (intros; apply visit_repo_appends).
  - rewrite api_prs_reply. simpl. eauto.
Qed.

(** ** Facts about [getUserWorkflows] *)

Lemma Date_setDate_back_local (n tv : Z) :
  Date_setDate_back LocalTZA n tv
  = UTC LocalTZA (LocalTime LocalTZA tv - n * msPerDay).
Proof.
  unfold Date_setDate_back, MakeDate, Day, TimeWithinDay. f_equal.
  pose proof (Z.div_mod (LocalTime LocalTZA tv) msPerDay) as H.
  unfold msPerDay in *. lia.
Qed.

(** In a zone whose offset does not change, [threeDaysAgo] is 72 hours
    before the call. *)
Lemma Date_setDate_back_fixed_zone (offset n tv : Z) :
  (forall t isUTC, LocalTZA t isUTC = offset) ->
  Date_setDate_back LocalTZA n tv = tv - n * msPerDay.
Proof.
  intros Hfixed. rewrite Date_setDate_back_local. unfold UTC, LocalTime.
  rewrite !Hfixed. lia.
Qed.

Lemma visit_run_appends (threeDaysAgo : Z) (repo : string) (run : Run.t) :
  appends (visit_run threeDaysAgo repo run).
Proof.
  unfold visit_run.
  destruct (Number_lt _ _); [apply appends_ret|].
  destruct (is_pull_ref _); [apply appends_ret|].
  destruct (_ =? _)%nat; [apply appends_push|apply appends_ret].
Qed.

Lemma In_pushed_by_visit_run (threeDaysAgo : Z) (repo : string) (run : Run.t)
  (w : StandaloneRun.t) :
  In w (pushed_by (visit_run threeDaysAgo repo run)) <->
  Number_lt (Date_parse (Run.created_at run)) (Some threeDaysAgo) = false /\
  is_pull_ref (Run.head_branch run) = false /\
  or_empty (Run.pull_requests run) = [] /\
  w = standalone_run repo run.
Proof.
  unfold pushed_by, visit_run.
  destruct (Number_lt _ _).
  { split; [intros [] | intros (H & _); discriminate H]. }
  destruct (is_pull_ref _).
  { split; [intros [] | intros (_ & H & _); discriminate H]. }
  destruct (or_empty (Run.pull_requests run)) as [|n l]; simpl.
  - split.
    + intros [<- | []]. repeat split.
    + intros (_ & _ & _ & ->). now left.
  - split; [intros [] | intros (_ & _ & H & _); discriminate H].
Qed.

Lemma visit_repo_runs_pushes (threeDaysAgo : Z) (repo : string)
  (s : list StandaloneRun.t) :
  visit_repo_runs threeDaysAgo repo s
  = (s ++ flat_map (fun run => pushed_by (visit_run threeDaysAgo repo run))
            (actor_runs_of repo),
     Resolved tt).
Proof.
  unfold visit_repo_runs, actor_runs_of, try_catch, bind, await.
  destruct (githubRequest _) as [workflows|e].
  - rewrite for_of_appends by (intros; apply visit_run_appends). reflexivity.
  - simpl. unfold ret. now rewrite app_nil_r.
Qed.

Lemma visit_repo_runs_appends (threeDaysAgo : Z) (repo : string) :
  appends (visit_repo_runs threeDaysAgo repo).
Proof.
  intro s. unfold pushed_by. now rewrite !visit_repo_runs_pushes.
Qed.

Lemma pushed_by_visit_repo_runs (threeDaysAgo : Z) (repo : string) :
  pushed_by (visit_repo_runs threeDaysAgo repo)
  = flat_map (fun run => pushed_by (visit_run threeDaysAgo repo run))
      (actor_runs_of repo).
Proof.
  unfold pushed_by at 1. now rewrite visit_repo_runs_pushes.
Qed.

Lemma getUserWorkflows_result (now : Z) :
  getUserWorkflows now
  = Resolved (Array_sort (newest_first StandaloneRun.created_at)
                (allRuns (Date_setDate_back LocalTZA 3 now))).
Proof.
  unfold getUserWorkflows.
  now rewrite for_of_appends by (intros; apply visit_repo_runs_appends).
Qed.

Lemma In_allRuns (threeDaysAgo : Z) (w : StandaloneRun.t) :
  In w (allRuns threeDaysAgo) <->
  exists repo run,
    In repo REPOSITORIES /\ In run (actor_runs_of repo) /\
    In w (pushed_by (visit_run threeDaysAgo repo run)).
Proof.
  unfold allRuns. rewrite in_flat_map. split.
  - intros (repo & Hrepo & Hw).
    rewrite pushed_by_visit_repo_runs, in_flat_map in Hw.
    destruct Hw as (run & Hrun & Hw). eauto.
  - intros (repo & run & Hrepo & Hrun & Hw). exists repo. split; [assumption|].
    rewrite pushed_by_visit_repo_runs, in_flat_map. eauto.
Qed.

Lemma In_actor_runs_of (repo : string) (workflows : Runs.t) (run : Run.t) :
  githubRequest (runs_by_actor (owner_of repo) (repoName_of repo) GITHUB_USERNAME)
  = Resolved workflows ->
  In run (Runs.workflow_runs workflows) ->
  In run (actor_runs_of repo).
Proof.
  intros Hfetch Hrun. unfold actor_runs_of. now rewrite Hfetch.
Qed.

(** ** Properties of [getUserWorkflows] *)

(** C2, as the code has it.  [threeDaysAgo] is the same wall-clock time of
    the local day three calendar days back: three days before the call, moved
    by what the offset of the server's zone changed between the two dates.
    The loop skips a run created before it, no run of the result was created
    before it, and a run created at it or later that upstream lists for a
    configured repository is in the result when the other two filters let it
    through.  When the offset is the same at both dates the cut-off is three
    days before the call to the millisecond; when it moved by less than a
    day, a run created four days before the call is not in the result and a
    run created two days before the call is kept. *)
Theorem getUserWorkflows_three_calendar_days (now : Z) :
  let shift :=
    LocalTZA now true - LocalTZA (LocalTime LocalTZA now - 3 * msPerDay) false in
  let threeDaysAgo := now - 3 * msPerDay + shift in
  exists runs,
    getUserWorkflows now = Resolved runs /\
    (forall repo run s t,
        Date_parse (Run.created_at run) = Some t ->
        t < threeDaysAgo ->
        visit_run threeDaysAgo repo run s = (s, Resolved tt)) /\
    (forall w t,
        In w runs -> Date_parse (StandaloneRun.created_at w) = Some t ->
        threeDaysAgo <= t) /\
    (forall repo workflows run t,
        In repo REPOSITORIES ->
        githubRequest
          (runs_by_actor (owner_of repo) (repoName_of repo) GITHUB_USERNAME)
        = Resolved workflows ->
        In run (Runs.workflow_runs workflows) ->
        Date_parse (Run.created_at run) = Some t ->
        threeDaysAgo <= t ->
        is_pull_ref (Run.head_branch run) = false ->
        or_empty (Run.pull_requests run) = [] ->
        In (standalone_run repo run) runs) /\
    (shift = 0 -> threeDaysAgo = now - 3 * msPerDay) /\
    (Z.abs shift < msPerDay ->
     (forall w,
         In w runs ->
         Date_parse (StandaloneRun.created_at w) <> Some (now - 4 * msPerDay)) /\
     (forall repo workflows run,
         In repo REPOSITORIES ->
         githubRequest
           (runs_by_actor (owner_of repo) (repoName_of repo) GITHUB_USERNAME)
         = Resolved workflows ->
         In run (Runs.workflow_runs workflows) ->
         Date_parse (Run.created_at run) = Some (now - 2 * msPerDay) ->
         is_pull_ref (Run.head_branch run) = false ->
         or_empty (Run.pull_requests run) = [] ->
         In (standalone_run repo run) runs)).
Proof.
  intros shift threeDaysAgo.
  assert (Hcut : Date_setDate_back LocalTZA 3 now = threeDaysAgo).
  { rewrite Date_setDate_back_local. unfold UTC, LocalTime, threeDaysAgo, shift.
    clear. unfold LocalTime. lia. }
  assert (Hwindow : forall w t,
             In w (allRuns (Date_setDate_back LocalTZA 3 now)) ->
             Date_parse (StandaloneRun.created_at w) = Some t ->
             threeDaysAgo <= t).
  { intros w t Hw Ht. apply In_allRuns in Hw.
    destruct Hw as (repo & run & _ & _ & Hw).
    apply In_pushed_by_visit_run in Hw. destruct Hw as (Hdate & _ & _ & ->).
    cbn [StandaloneRun.created_at standalone_run] in Ht.
    rewrite Ht, Hcut in Hdate. cbn [Number_lt] in Hdate.
    now apply Z.ltb_ge in Hdate. }
  assert (Hkept : forall repo workflows run t,
             In repo REPOSITORIES ->
             githubRequest
               (runs_by_actor (owner_of repo) (repoName_of repo) GITHUB_USERNAME)
             = Resolved workflows ->
             In run (Runs.workflow_runs workflows) ->
             Date_parse (Run.created_at run) = Some t ->
             threeDaysAgo <= t ->
             is_pull_ref (Run.head_branch run) = false ->
             or_empty (Run.pull_requests run) = [] ->
             In (standalone_run repo run)
               (Array_sort (newest_first StandaloneRun.created_at)
                  (allRuns (Date_setDate_back LocalTZA 3 now)))).
  { intros repo workflows run t Hrepo Hfetch Hrun Hdate Hnew Hbranch Hprs.
    apply Array_sort_In, In_allRuns. exists repo, run.
    split; [assumption|]. split; [now apply (In_actor_runs_of repo workflows)|].
    apply In_pushed_by_visit_run. repeat split; try assumption.
    rewrite Hdate, Hcut. cbn [Number_lt]. now apply Z.ltb_ge. }
  eexists. split; [apply getUserWorkflows_result|].
  split; [|split; [|split; [|split; [|intros Hzone; split]]]].
  - intros repo run s t Hdate Hold. unfold visit_run. rewrite Hdate.
    cbn [Number_lt]. now rewrite (proj2 (Z.ltb_lt _ _) Hold).
  - intros w t Hw. apply Array_sort_In in Hw. now apply Hwindow.
  - exact Hkept.
  - intros Hshift. unfold threeDaysAgo. rewrite Hshift. apply Z.add_0_r.
  - intros w Hw Hdate. apply Array_sort_In in Hw.
    pose proof (Hwindow w _ Hw Hdate) as Hle.
    unfold threeDaysAgo in Hle. clear - Hle Hzone. unfold msPerDay in *. lia.
  - intros repo workflows run Hrepo Hfetch Hrun Hdate Hbranch Hprs.
    apply (Hkept repo workflows run (now - 2 * msPerDay)); try assumption.
    unfold threeDaysAgo. clear - Hzone. unfold msPerDay in *. lia.
Qed.

(** C5. A run whose head branch starts with [refs/pull/] is skipped by the
    loop whatever its list of pull requests, an empty or a missing one
    included; no run of the result has such a head branch. *)
Theorem getUserWorkflows_drops_pull_refs (now : Z) :
  exists runs,
    getUserWorkflows now = Resolved runs /\
    (forall w b,
        In w runs -> StandaloneRun.head_branch w = Some b ->
        prefix "refs/pull/" b = false) /\
    (forall threeDaysAgo repo run b s,
        Run.head_branch run = Some b -> prefix "refs/pull/" b = true ->
        visit_run threeDaysAgo repo run s = (s, Resolved tt)).
Proof.
  eexists. split; [apply getUserWorkflows_result|]. split.
  - intros w b Hw Hb. apply Array_sort_In, In_allRuns in Hw.
    destruct Hw as (repo & run & _ & _ & Hw).
    apply In_pushed_by_visit_run in Hw. destruct Hw as (_ & Href & _ & ->).
    simpl in Hb. rewrite Hb in Href. unfold is_pull_ref, truthy in Href.
    destruct b as [|c b]; [reflexivity|]. exact Href.
  - intros threeDaysAgo repo run b s Hb Hprefix. unfold visit_run.
    destruct (Number_lt _ _); [reflexivity|].
    rewrite Hb. unfold is_pull_ref, truthy. rewrite Hprefix.
    destruct b as [|c b]; [discriminate|]. reflexivity.
Qed.


(** ** Properties of [getLatestPRComment] *)

Lemma latest_of_newest (issueComments reviewComments : list Comment.t) :
  issueComments ++ reviewComments <> [] ->
  (forall c, In c (issueComments ++ reviewComments) ->
             valid_date (Comment.created_at c)) ->
  exists c t,
    In c (issueComments ++ reviewComments) /\
    latest_of issueComments reviewComments = Resolved (Some (Comment.created_at c)) /\
    Date_parse (Comment.created_at c) = Some t /\
    forall c' t',
      In c' (issueComments ++ reviewComments) ->
      Date_parse (Comment.created_at c') = Some t' -> t' <= t.
Proof.
  intros Hne Hvalid. unfold latest_of.
  set (allComments := issueComments ++ reviewComments) in *.
  destruct allComments as [|c0 rest] eqn:Eall; [congruence|]. rewrite <- Eall in *.
  replace (List.length allComments =? 0)%nat with false
    by (rewrite Eall; reflexivity).
  pose proof (Array_sort_perm (newest_first Comment.created_at) allComments) as Hperm.
  pose proof (Array_sort_sorted Comment.created_at allComments
                (proj2 (Forall_forall _ _) Hvalid)) as Hsorted.
  destruct (Array_sort (newest_first Comment.created_at) allComments)
    as [|first others] eqn:Esort.
  - apply Permutation_nil in Hperm. rewrite Eall in Hperm. discriminate.
  - assert (Hfirst : In first allComments)
      by (eapply Permutation_in; [exact Hperm | now left]).
    pose proof (Hvalid first Hfirst) as Hv. unfold valid_date in Hv.
    destruct (Date_parse (Comment.created_at first)) as [t|] eqn:Et; [|congruence].
    exists first, t. repeat split; try assumption.
    intros c' t' Hc' Ht'.
    apply (Permutation_in _ (Permutation_sym Hperm)) in Hc'.
    destruct Hc' as [<- | Hc'].
    + rewrite Et in Ht'. injection Ht' as <-. lia.
    + inversion Hsorted as [|? ? _ Hall]; subst.
      rewrite Forall_forall in Hall. specialize (Hall c' Hc').
      unfold not_older in Hall. now rewrite Et, Ht' in Hall.
Qed.

(** C3. With both comment lists fetched and their creation times readable,
    [getLatestPRComment] returns [null] when the two lists are empty and
    otherwise the [created_at] of a comment of one of the lists whose time no
    comment of either list exceeds; it returns [null] when one of the two
    requests fails. *)
Theorem getLatestPRComment_newest_of_both (owner repo : string) (prNumber : Z) :
  (forall issueComments reviewComments,
      githubRequest (issue_comments owner repo prNumber) = Resolved issueComments ->
      githubRequest (pull_comments owner repo prNumber) = Resolved reviewComments ->
      (forall c, In c (issueComments ++ reviewComments) ->
                 valid_date (Comment.created_at c)) ->
      (issueComments = [] /\ reviewComments = [] ->
       getLatestPRComment owner repo prNumber = Resolved None) /\
      (issueComments ++ reviewComments <> [] ->
       exists c t,
         In c (issueComments ++ reviewComments) /\
         getLatestPRComment owner repo prNumber
         = Resolved (Some (Comment.created_at c)) /\
         Date_parse (Comment.created_at c) = Some t /\
         forall c' t',
           In c' (issueComments ++ reviewComments) ->
           Date_parse (Comment.created_at c') = Some t' -> t' <= t)) /\
  (forall e,
      githubRequest (issue_comments owner repo prNumber) = Rejected e \/
      githubRequest (pull_comments owner repo prNumber) = Rejected e ->
      getLatestPRComment owner repo prNumber = Resolved None).
Proof.
  split.
  - intros ic rc Hic Hrc Hvalid. unfold getLatestPRComment.
    rewrite Hic, Hrc. cbn [Promise_all2 and_then]. split.
    + intros [-> ->]. reflexivity.
    + intros Hne.
      destruct (latest_of_newest ic rc Hne Hvalid) as (c & t & Hc & Heq & Ht & Hmax).
      exists c, t. rewrite Heq. auto.
  - intros e [He | He]; unfold getLatestPRComment; rewrite He.
    + reflexivity.
    + now destruct (githubRequest (issue_comments owner repo prNumber)).
Qed.

(** ** Properties of [getPRReviews] *)

Lemma reviews_in_state_app (s : string) (l1 l2 : list Review.t) :
  reviews_in_state s (l1 ++ l2) = reviews_in_state s l1 ++ reviews_in_state s l2.
Proof.
  unfold reviews_in_state. now rewrite filter_app, map_app.
Qed.

Lemma reviews_in_state_cons (s : string) (review : Review.t) (l : list Review.t) :
  reviews_in_state s (review :: l) = entry_in_state s review ++ reviews_in_state s l.
Proof.
  unfold reviews_in_state, entry_in_state. simpl.
  now destruct (Review.state review =? s)%string.
Qed.

(** C4, as the code has it.  The two requests of [getPRReviews] stand or
    fall together.  With the requested reviewers answered, the review at any
    place of the review list adds its entry to [approving],
    [changesRequested] or [pending] at that place exactly when its state is
    [APPROVED], [CHANGES_REQUESTED] or [PENDING], and a review in any other
    state adds nothing to the three lists: they are what they would be
    without it.  With the requested reviewers not answered, the summary is
    the five empty lists, whatever the states of the reviews. *)
Theorem getPRReviews_classifies_by_state (owner repo : string) (prNumber : Z)
  (before after : list Review.t) (review : Review.t) :
  githubRequest (pull_reviews owner repo prNumber)
  = Resolved (before ++ review :: after) ->
  (forall requestedReviewers,
      githubRequest (pull_requested_reviewers owner repo prNumber)
      = Resolved requestedReviewers ->
      exists summary,
        getPRReviews owner repo prNumber = Resolved summary /\
        ReviewSummary.approving summary
        = reviews_in_state "APPROVED" before
          ++ (if (Review.state review =? "APPROVED")%string
              then [review_entry review] else [])
          ++ reviews_in_state "APPROVED" after /\
        ReviewSummary.changesRequested summary
        = reviews_in_state "CHANGES_REQUESTED" before
          ++ (if (Review.state review =? "CHANGES_REQUESTED")%string
              then [review_entry review] else [])
          ++ reviews_in_state "CHANGES_REQUESTED" after /\
        ReviewSummary.pending summary
        = reviews_in_state "PENDING" before
          ++ (if (Review.state review =? "PENDING")%string
              then [review_entry review] else [])
          ++ reviews_in_state "PENDING" after /\
        (Review.state review <> "APPROVED" ->
         Review.state review <> "CHANGES_REQUESTED" ->
         Review.state review <> "PENDING" ->
         ReviewSummary.approving summary
         = reviews_in_state "APPROVED" (before ++ after) /\
         ReviewSummary.changesRequested summary
         = reviews_in_state "CHANGES_REQUESTED" (before ++ after) /\
         ReviewSummary.pending summary
         = reviews_in_state "PENDING" (before ++ after))) /\
  (forall e,
      githubRequest (pull_requested_reviewers owner repo prNumber) = Rejected e ->
      getPRReviews owner repo prNumber = Resolved ReviewSummary.empty).
Proof.
  intros Hreviews. split.
  - intros requestedReviewers Hrequested.
    eexists. split; [eapply getPRReviews_classifies; eassumption|].
    cbn [classify_reviews ReviewSummary.approving ReviewSummary.changesRequested
           ReviewSummary.pending].
    rewrite !reviews_in_state_app, !reviews_in_state_cons.
    unfold entry_in_state. repeat split; try reflexivity;
      repeat match goal with
             | H : Review.state review <> _ |- _ =>
                 apply String.eqb_neq in H; rewrite H
             end; reflexivity.
  - intros e Hfailed. unfold getPRReviews. rewrite Hreviews, Hfailed.
    reflexivity.
Qed.

Lemma appears_in_state (login s : string) (reviews : list Review.t) :
  appears (a_user login) (map a_user (map ReviewEntry.user (reviews_in_state s reviews)))
  = true ->
  exists r,
    In r reviews /\ Review.state r = s /\ User.login (Review.user r) = login.
Proof.
  unfold appears. rewrite existsb_exists. intros (who & Hin & Heq).
  rewrite !in_map_iff in Hin. destruct Hin as (lg & <- & Hin).
  rewrite in_map_iff in Hin. destruct Hin as (entry & <- & Hin).
  unfold reviews_in_state in Hin. rewrite in_map_iff in Hin.
  destruct Hin as (r & <- & Hin). rewrite filter_In, String.eqb_eq in Hin.
  simpl in Heq. apply String.eqb_eq in Heq.
  destruct Hin as [Hin Hstate]. exists r. auto.
Qed.

Lemma appears_requested (login : string) (users : list User.t) :
  appears (a_user login)
    (map a_user (map RequestedUser.user (map requested_user users))) = true ->
  exists u, In u users /\ User.login u = login.
Proof.
  unfold appears. rewrite existsb_exists. intros (who & Hin & Heq).
  rewrite !in_map_iff in Hin. destruct Hin as (lg & <- & Hin).
  rewrite in_map_iff in Hin. destruct Hin as (entry & <- & Hin).
  rewrite in_map_iff in Hin. destruct Hin as (u & <- & Hin).
  simpl in Heq. apply String.eqb_eq in Heq. eauto.
Qed.

Lemma team_not_among_users (slug : string) (logins : list string) :
  appears (a_team slug) (map a_user logins) = false.
Proof.
  unfold appears. induction logins as [|l logins IH]; [reflexivity|]. exact IH.
Qed.

Lemma user_not_among_teams (login : string) (slugs : list string) :
  appears (a_user login) (map a_team slugs) = false.
Proof.
  unfold appears. induction slugs as [|g slugs IH]; [reflexivity|]. exact IH.
Qed.

Lemma classify_reviews_one_sequence (reviews : list Review.t)
  (requestedReviewers : RequestedReviewers.t) :
  upstream_disjoint reviews requestedReviewers ->
  in_one_sequence_at_most (classify_reviews reviews requestedReviewers).
Proof.
  intros [Hstates Hrequested] who.
  unfold sequences_containing, sequences_of, classify_reviews.
  cbn [ReviewSummary.approving ReviewSummary.changesRequested ReviewSummary.pending
         ReviewSummary.requestedUsers ReviewSummary.requestedTeams filter].
  destruct who as [login | slug].
  - rewrite user_not_among_teams.
    destruct (appears _ (map a_user (map ReviewEntry.user
                (reviews_in_state "APPROVED" reviews)))) eqn:Ea;
    destruct (appears _ (map a_user (map ReviewEntry.user
                (reviews_in_state "CHANGES_REQUESTED" reviews)))) eqn:Ec;
    destruct (appears _ (map a_user (map ReviewEntry.user
                (reviews_in_state "PENDING" reviews)))) eqn:Ep;
    destruct (appears _ (map a_user (map RequestedUser.user _))) eqn:Er;
    cbn [List.length]; try lia; exfalso;
    repeat match goal with
      | H : appears _ (map a_user (map ReviewEntry.user _)) = true |- _ =>
          apply appears_in_state in H; destruct H as (? & ? & ? & ?)
      | H : appears _ (map a_user (map RequestedUser.user _)) = true |- _ =>
          apply appears_requested in H; destruct H as (? & ? & ?)
      | H : appears _ _ = false |- _ => clear H
      end;
    try match goal with
      | Hu : In ?u (or_empty _), Lu : User.login ?u = _,
        Hr : In ?r reviews, Sr : Review.state ?r = _,
        Lr : User.login (Review.user ?r) = _ |- _ =>
          apply (Hrequested r u Hr);
          [unfold classified; rewrite Sr; simpl; auto
          | exact Hu
          | now rewrite Lu, Lr]
      end;
    match goal with
    | H1 : In ?r1 reviews, H2 : In ?r2 reviews,
      S1 : Review.state ?r1 = ?s1, S2 : Review.state ?r2 = ?s2,
      L1 : User.login (Review.user ?r1) = _,
      L2 : User.login (Review.user ?r2) = _ |- _ =>
        lazymatch s1 with
        | s2 => fail
        | _ =>
            absurd (Review.state r1 = Review.state r2);
            [rewrite S1, S2; discriminate
            |apply Hstates; try assumption;
             [unfold classified; rewrite S1; simpl; auto
             |unfold classified; rewrite S2; simpl; auto
             |now rewrite L1, L2]]
        end
    end.
  - rewrite !team_not_among_users.
    destruct (appears _ _); cbn [List.length]; lia.
Qed.

(** C1, as the code has it.  [getPRReviews] builds the five sequences from
    the two upstream answers one by one and removes nobody from any of them.
    When the two answers name nobody twice ([upstream_disjoint]), nobody
    appears in more than one sequence of the summary. *)
Theorem getPRReviews_one_sequence_when_upstream_disjoint
  (owner repo : string) (prNumber : Z) :
  (forall reviews requestedReviewers,
      githubRequest (pull_reviews owner repo prNumber) = Resolved reviews ->
      githubRequest (pull_requested_reviewers owner repo prNumber)
      = Resolved requestedReviewers ->
      upstream_disjoint reviews requestedReviewers) ->
  exists summary,
    getPRReviews owner repo prNumber = Resolved summary /\
    in_one_sequence_at_most summary.
Proof.
  intros Hupstream. unfold getPRReviews.
  destruct (githubRequest (pull_reviews owner repo prNumber)) as [reviews|e1];
    destruct (githubRequest (pull_requested_reviewers owner repo prNumber))
      as [requestedReviewers|e2];
    cbn [Promise_all2 and_then catch]; eexists; (split; [reflexivity|]).
  - now apply classify_reviews_one_sequence, Hupstream.
  - intros [l|g]; cbn; lia.
  - intros [l|g]; cbn; lia.
  - intros [l|g]; cbn; lia.
Qed.

(** ** Further properties of the helpers *)

(** X1. [githubRequest] hands out data only from an answer that is [ok] and
    whose body parses: it resolves to [a] exactly when [fetch] resolved to
    such an answer with [a] as its JSON. *)
Theorem githubRequest_resolves_iff (A : Type) (url : Url A) (a : A) :
  githubRequest url = Resolved a <->
  exists response,
    fetch url = Resolved response /\
    Response.ok response = true /\
    Response.json response = Resolved a.
Proof.
  unfold githubRequest, and_then.
  destruct (fetch url) as [response|e].
  - destruct (Response.ok response) eqn:Eok; cbn [negb]; split.
    + intros Hjson. exists response. auto.
    + intros (response' & Heq & _ & Hjson). injection Heq as <-. exact Hjson.
    + intros H. discriminate H.
    + intros (response' & Heq & Hok & _). injection Heq as <-.
      rewrite Hok in Eok. discriminate Eok.
  - split.
    + intros H. discriminate H.
    + intros (response' & Heq & _). discriminate Heq.
Qed.

(** X2. When one of the two requests of [getPRReviews] fails, the summary is
    the five empty lists, whatever the other request answered: reviews that
    were fetched are not shown either. *)
Theorem getPRReviews_empty_when_a_request_fails
  (owner repo : string) (prNumber : Z) (e : Error) :
  githubRequest (pull_reviews owner repo prNumber) = Rejected e \/
  githubRequest (pull_requested_reviewers owner repo prNumber) = Rejected e ->
  getPRReviews owner repo prNumber = Resolved ReviewSummary.empty.
Proof.
  intros [He | He]; unfold getPRReviews; rewrite He.
  - reflexivity.
  - now destruct (githubRequest (pull_reviews owner repo prNumber)).
Qed.

Lemma reviews_in_state_partition (reviews : list Review.t) :
  (List.length (reviews_in_state "APPROVED" reviews)
   + List.length (reviews_in_state "CHANGES_REQUESTED" reviews)
   + List.length (reviews_in_state "PENDING" reviews)
   + List.length
       (filter
          (fun r =>
             negb ((Review.state r =? "APPROVED")
                   || (Review.state r =? "CHANGES_REQUESTED")
                   || (Review.state r =? "PENDING"))%string)
          reviews)
   = List.length reviews)%nat.
Proof.
  induction reviews as [|r l IH]; [reflexivity|].
  rewrite !reviews_in_state_cons, !length_app. unfold entry_in_state.
  cbn [filter List.length].
  destruct (Review.state r =? "APPROVED")%string eqn:Ea.
  - apply String.eqb_eq in Ea. rewrite Ea. cbn. lia.
  - destruct (Review.state r =? "CHANGES_REQUESTED")%string eqn:Ec.
    + apply String.eqb_eq in Ec. rewrite Ec. cbn. lia.
    + destruct (Review.state r =? "PENDING")%string eqn:Ep; cbn; lia.
Qed.

Lemma classified_iff (r : Review.t) :
  classified r <->
  ((Review.state r =? "APPROVED")
   || (Review.state r =? "CHANGES_REQUESTED")
   || (Review.state r =? "PENDING"))%string = true.
Proof.
  unfold classified. cbn [In]. rewrite !orb_true_iff, !String.eqb_eq. split.
  - intros [H | [H | [H | []]]]; auto.
  - intros [[H | H] | H]; auto.
Qed.

Lemma no_other_state_iff (reviews : list Review.t) :
  filter
    (fun r =>
       negb ((Review.state r =? "APPROVED")
             || (Review.state r =? "CHANGES_REQUESTED")
             || (Review.state r =? "PENDING"))%string)
    reviews = [] <->
  Forall classified reviews.
Proof.
  induction reviews as [|r l IH]; cbn [filter].
  - split; [constructor | reflexivity].
  - destruct (negb _) eqn:Er.
    + split; [intros H; discriminate H|].
      intros H. inversion H as [|? ? Hr _]; subst.
      apply classified_iff in Hr. rewrite Hr in Er. discriminate Er.
    + rewrite IH. apply negb_false_iff, classified_iff in Er. split.
      * intros H. now constructor.
      * intros H. now inversion H.
Qed.

(** X3. With both requests answered, the three classified lists never hold
    more entries than there are reviews, and hold as many exactly when every
    review is in one of the three states; the two request lists have one
    entry for each requested user and each requested team. *)
Theorem getPRReviews_counts (owner repo : string) (prNumber : Z)
  (reviews : list Review.t) (requestedReviewers : RequestedReviewers.t) :
  githubRequest (pull_reviews owner repo prNumber) = Resolved reviews ->
  githubRequest (pull_requested_reviewers owner repo prNumber)
  = Resolved requestedReviewers ->
  exists summary,
    getPRReviews owner repo prNumber = Resolved summary /\
    (List.length (ReviewSummary.approving summary)
     + List.length (ReviewSummary.changesRequested summary)
     + List.length (ReviewSummary.pending summary)
     <= List.length reviews)%nat /\
    ((List.length (ReviewSummary.approving summary)
      + List.length (ReviewSummary.changesRequested summary)
      + List.length (ReviewSummary.pending summary)
      = List.length reviews)%nat <-> Forall classified reviews) /\
    List.length (ReviewSummary.requestedUsers summary)
    = List.length (or_empty (RequestedReviewers.users requestedReviewers)) /\
    List.length (ReviewSummary.requestedTeams summary)
    = List.length (or_empty (RequestedReviewers.teams requestedReviewers)).
Proof.
  intros Hreviews Hrequested.
  eexists. split; [eapply getPRReviews_classifies; eassumption|].
  cbn [classify_reviews ReviewSummary.approving ReviewSummary.changesRequested
         ReviewSummary.pending ReviewSummary.requestedUsers
         ReviewSummary.requestedTeams].
  pose proof (reviews_in_state_partition reviews) as Hsum.
  set (others := filter _ reviews) in Hsum.
  split; [lia|]. split; [|split; apply length_map].
  assert (Hothers : others = [] <-> Forall classified reviews)
    by apply no_other_state_iff.
  rewrite <- Hothers. split.
  - intros Heq. destruct others; [reflexivity|]. cbn [List.length] in Hsum. lia.
  - intros ->. cbn [List.length] in Hsum. lia.
Qed.

(** X4. With both comment lists fetched, whatever their timestamps look
    like, [getLatestPRComment] does not fail, returns [null] exactly when
    both lists are empty, and otherwise returns the [created_at] of one of
    the fetched comments. *)
Theorem getLatestPRComment_is_a_fetched_timestamp
  (owner repo : string) (prNumber : Z)
  (issueComments reviewComments : list Comment.t) :
  githubRequest (issue_comments owner repo prNumber) = Resolved issueComments ->
  githubRequest (pull_comments owner repo prNumber) = Resolved reviewComments ->
  exists latest,
    getLatestPRComment owner repo prNumber = Resolved latest /\
    (latest = None <-> issueComments ++ reviewComments = []) /\
    (forall created_at,
        latest = Some created_at ->
        exists c,
          In c (issueComments ++ reviewComments) /\
          Comment.created_at c = created_at).
Proof.
  intros Hic Hrc. unfold getLatestPRComment. rewrite Hic, Hrc.
  cbn [Promise_all2 and_then]. unfold latest_of.
  pose proof (Array_sort_perm (newest_first Comment.created_at)
                (issueComments ++ reviewComments)) as Hperm.
  destruct (issueComments ++ reviewComments) as [|c0 rest] eqn:Eall.
  - exists None. cbn. split; [reflexivity|]. split; [split; reflexivity|].
    intros created_at H. discriminate H.
  - cbn [List.length Nat.eqb].
    destruct (Array_sort (newest_first Comment.created_at) (c0 :: rest))
      as [|first others] eqn:Esort.
    + apply Permutation_nil in Hperm. discriminate Hperm.
    + exists (Some (Comment.created_at first)). cbn [catch].
      split; [reflexivity|]. split.
      * split; intros H; discriminate H.
      * intros created_at H. injection H as <-. exists first.
        split; [|reflexivity].
        eapply Permutation_in; [exact Hperm | now left].
Qed.

(** X5. [getPRReviews] never rejects, so the [catch] of [/api/debug] is
    dead: the reply is a 200 carrying a review summary, whatever the two
    requests do. *)
Theorem api_debug_never_500 :
  exists reviews,
    api_debug = {| DebugReply.status := 200; DebugReply.body := DebugReviews reviews |}.
Proof.
  unfold api_debug.
  destruct (getPRReviews_resolves "aderant" "expert-suite" 119) as [reviews ->].
  now exists reviews.
Qed.

(** ** Further properties of [getUserWorkflows] and [/api/workflows] *)

(** X6. The result of [getUserWorkflows] holds the record of a run exactly
    when a configured repository lists the run for the user, the run is not
    older than [threeDaysAgo], its head branch is not a pull-request ref and
    no pull request is attached to it. *)
Theorem getUserWorkflows_membership (now : Z) :
  exists runs,
    getUserWorkflows now = Resolved runs /\
    forall w,
      In w runs <->
      exists repo workflows run,
        In repo REPOSITORIES /\
        githubRequest
          (runs_by_actor (owner_of repo) (repoName_of repo) GITHUB_USERNAME)
        = Resolved workflows /\
        In run (Runs.workflow_runs workflows) /\
        Number_lt (Date_parse (Run.created_at run))
          (Some (Date_setDate_back LocalTZA 3 now)) = false /\
        is_pull_ref (Run.head_branch run) = false /\
        or_empty (Run.pull_requests run) = [] /\
        w = standalone_run repo run.
Proof.
  eexists. split; [apply getUserWorkflows_result|].
  intro w. rewrite Array_sort_In, In_allRuns. split.
  - intros (repo & run & Hrepo & Hrun & Hw).
    apply In_pushed_by_visit_run in Hw. destruct Hw as (Hdate & Href & Hprs & ->).
    unfold actor_runs_of in Hrun.
    destruct (githubRequest
                (runs_by_actor (owner_of repo) (repoName_of repo) GITHUB_USERNAME))
      as [workflows|e] eqn:Efetch; [|destruct Hrun].
    exists repo, workflows, run. auto 10.
  - intros (repo & workflows & run & Hrepo & Hfetch & Hrun & Hdate & Href & Hprs & ->).
    exists repo, run. split; [assumption|].
    split; [now apply (In_actor_runs_of repo workflows)|].
    apply In_pushed_by_visit_run. auto.
Qed.

Lemma pushed_by_visit_run (threeDaysAgo : Z) (repo : string) (run : Run.t) :
  pushed_by (visit_run threeDaysAgo repo run)
  = if passes_filters threeDaysAgo run then [standalone_run repo run] else [].
Proof.
  unfold pushed_by, visit_run, passes_filters.
  destruct (Number_lt _ _); [reflexivity|].
  destruct (is_pull_ref _); [reflexivity|].
  now destruct (_ =? _)%nat.
Qed.

Lemma runs_at_time_of_repo (threeDaysAgo t : Z) (repo : string) :
  filter (created_at_time StandaloneRun.created_at t)
    (pushed_by (visit_repo_runs threeDaysAgo repo))
  = map (standalone_run repo)
      (filter
         (fun run =>
            created_at_time Run.created_at t run && passes_filters threeDaysAgo run)
         (actor_runs_of repo)).
Proof.
  rewrite pushed_by_visit_repo_runs.
  induction (actor_runs_of repo) as [|run l IH]; [reflexivity|].
  cbn [flat_map filter]. rewrite filter_app, IH, pushed_by_visit_run.
  destruct (passes_filters threeDaysAgo run).
  - cbn [filter].
    replace (created_at_time StandaloneRun.created_at t (standalone_run repo run))
      with (created_at_time Run.created_at t run) by reflexivity.
    rewrite andb_true_r. now destruct (created_at_time Run.created_at t run).
  - rewrite andb_false_r. reflexivity.
Qed.

(** X7. When the creation times of the listed runs are readable dates, the
    result of [getUserWorkflows] is sorted newest first, and the runs sharing
    one creation time come in the order of [REPOSITORIES] and, inside a
    repository, in the order upstream lists them: the records of the result
    created at a time [t] are the records of the runs created at [t] that
    pass the three filters, repository after repository, each repository's
    in the order of its run list. *)
Theorem getUserWorkflows_newest_first_stable (now : Z) :
  (forall repo run,
      In repo REPOSITORIES -> In run (actor_runs_of repo) ->
      valid_date (Run.created_at run)) ->
  exists runs,
    getUserWorkflows now = Resolved runs /\
    StronglySorted (not_older StandaloneRun.created_at) runs /\
    forall t,
      filter (created_at_time StandaloneRun.created_at t) runs
      = flat_map
          (fun repo =>
             map (standalone_run repo)
               (filter
                  (fun run =>
                     created_at_time Run.created_at t run
                     && passes_filters (Date_setDate_back LocalTZA 3 now) run)
                  (actor_runs_of repo)))
          REPOSITORIES.
Proof.
  intros Hvalid. eexists. split; [apply getUserWorkflows_result|]. split.
  - apply Array_sort_sorted. apply Forall_forall. intros w Hw.
    apply In_allRuns in Hw. destruct Hw as (repo & run & Hrepo & Hrun & Hw).
    apply In_pushed_by_visit_run in Hw. destruct Hw as (_ & _ & _ & ->).
    unfold valid_created_at. cbn [StandaloneRun.created_at standalone_run].
    now apply (Hvalid repo).
  - intro t. rewrite Array_sort_stable. unfold allRuns. rewrite filter_flat_map.
    apply flat_map_ext. intro repo. apply runs_at_time_of_repo.
Qed.

(** X8. When the request for the runs of one repository fails,
    [getUserWorkflows] still resolves: no run of the result belongs to that
    repository, and the runs of the other repositories that pass the three
    filters are in the result. *)
Theorem getUserWorkflows_survives_failed_repository
  (now : Z) (failing : string) (e : Error) :
  githubRequest
    (runs_by_actor (owner_of failing) (repoName_of failing) GITHUB_USERNAME)
  = Rejected e ->
  (forall s,
      visit_repo_runs (Date_setDate_back LocalTZA 3 now) failing s
      = (s, Resolved tt)) /\
  exists runs,
    getUserWorkflows now = Resolved runs /\
    (forall w, In w runs -> StandaloneRun.repository w <> failing) /\
    (forall other workflows run,
        In other REPOSITORIES ->
        githubRequest
          (runs_by_actor (owner_of other) (repoName_of other) GITHUB_USERNAME)
        = Resolved workflows ->
        In run (Runs.workflow_runs workflows) ->
        Number_lt (Date_parse (Run.created_at run))
          (Some (Date_setDate_back LocalTZA 3 now)) = false ->
        is_pull_ref (Run.head_branch run) = false ->
        or_empty (Run.pull_requests run) = [] ->
        In (standalone_run other run) runs).
Proof.
  intros Hfail.
  assert (Hnone : actor_runs_of failing = [])
    by (unfold actor_runs_of; now rewrite Hfail).
  split.
  - intro s. rewrite visit_repo_runs_pushes, Hnone. cbn [flat_map].
    now rewrite app_nil_r.
  - eexists. split; [apply getUserWorkflows_result|]. split.
    + intros w Hw. apply Array_sort_In, In_allRuns in Hw.
      destruct Hw as (repo & run & _ & Hrun & Hw).
      apply In_pushed_by_visit_run in Hw. destruct Hw as (_ & _ & _ & ->).
      cbn [StandaloneRun.repository standalone_run]. intros ->.
      rewrite Hnone in Hrun. destruct Hrun.
    + intros other workflows run Hother Hfetch Hrun Hdate Href Hprs.
      apply Array_sort_In, In_allRuns. exists other, run.
      split; [assumption|].
      split; [now apply (In_actor_runs_of other workflows)|].
      apply In_pushed_by_visit_run. auto.
Qed.

(** X9. Whatever the upstream requests do, [getUserWorkflows] resolves, so
    the [catch] of [/api/workflows] is dead: the reply is a 200 carrying the
    array of standalone runs. *)
Theorem api_workflows_never_500 (now : Z) :
  exists workflows,
    getUserWorkflows now = Resolved workflows /\
    api_workflows now
    = {| WorkflowsReply.status := 200;
         WorkflowsReply.body := StandaloneRuns workflows |}.
Proof.
  eexists. split; [apply getUserWorkflows_result|].
  unfold api_workflows. now rewrite getUserWorkflows_result.
Qed.

Lemma substring_0_length (n : nat) (s : string) :
  String.length (substring 0 n s) = Nat.min n (String.length s).
Proof.
  revert s. induction n as [|n IH]; intros [|c s]; cbn; auto.
Qed.

Lemma substring_0_prefix (n : nat) (s : string) :
  prefix (substring 0 n s) s = true.
Proof.
  revert s. induction n as [|n IH]; intros [|c s]; cbn; auto.
  rewrite IH. now destruct (ascii_dec c c).
Qed.

Lemma substring_0_whole (n : nat) (s : string) :
  (String.length s <= n)%nat -> substring 0 n s = s.
Proof.
  revert s. induction n as [|n IH]; intros [|c s] Hlen; cbn in *;
    try reflexivity; try lia.
  f_equal. apply IH. lia.
Qed.

(** X10. The [head_sha] of a record of the result is never longer than
    seven characters: it is the first seven characters of the SHA upstream
    gave for the run (the whole SHA when that is shorter), and is missing
    exactly when upstream gave none. *)
Theorem getUserWorkflows_short_sha (now : Z) :
  exists runs,
    getUserWorkflows now = Resolved runs /\
    forall w,
      In w runs ->
      exists repo run,
        In repo REPOSITORIES /\ In run (actor_runs_of repo) /\
        w = standalone_run repo run /\
        match Run.head_sha run, StandaloneRun.head_sha w with
        | Some sha, Some short =>
            String.length short = Nat.min 7 (String.length sha) /\
            prefix short sha = true /\
            ((String.length sha <= 7)%nat -> short = sha)
        | None, None => True
        | _, _ => False
        end.
Proof.
  eexists. split; [apply getUserWorkflows_result|].
  intros w Hw. apply Array_sort_In, In_allRuns in Hw.
  destruct Hw as (repo & run & Hrepo & Hrun & Hw).
  apply In_pushed_by_visit_run in Hw. destruct Hw as (_ & _ & _ & ->).
  exists repo, run. repeat split; try assumption.
  cbn [StandaloneRun.head_sha standalone_run].
  destruct (Run.head_sha run) as [sha|]; cbn [option_map]; [|exact I].
  split; [apply substring_0_length|].
  split; [apply substring_0_prefix | apply substring_0_whole].
Qed.

(** X11. The age filter lets through a run whose [created_at] is not a
    readable date: the comparison with [threeDaysAgo] is false on an invalid
    date, so such a run is in the result when the other two filters let it
    through. *)
Theorem getUserWorkflows_keeps_unreadable_dates
  (now : Z) (repo : string) (workflows : Runs.t) (run : Run.t) :
  In repo REPOSITORIES ->
  githubRequest (runs_by_actor (owner_of repo) (repoName_of repo) GITHUB_USERNAME)
  = Resolved workflows ->
  In run (Runs.workflow_runs workflows) ->
  Date_parse (Run.created_at run) = None ->
  is_pull_ref (Run.head_branch run) = false ->
  or_empty (Run.pull_requests run) = [] ->
  exists runs,
    getUserWorkflows now = Resolved runs /\
    In (standalone_run repo run) runs.
Proof.
  intros Hrepo Hfetch Hrun Hdate Href Hprs.
  eexists. split; [apply getUserWorkflows_result|].
  apply Array_sort_In, In_allRuns. exists repo, run.
  split; [assumption|]. split; [now apply (In_actor_runs_of repo workflows)|].
  apply In_pushed_by_visit_run. rewrite Hdate. auto.
Qed.

(** ** Further properties of [/api/prs] *)

(** X12. A pull request of the user whose reviews, comments or workflow runs
    cannot be fetched is in the reply all the same: with a failed review
    request its summary is the five empty lists, with a failed comment
    request its latest comment is [null], with a failed run request its
    workflows are the empty list. *)
Theorem api_prs_degrades_per_pull_request
  (repo : string) (prs : list Pull.t) (pr : Pull.t) :
  In repo REPOSITORIES ->
  githubRequest (pulls_open (owner_of repo) (repoName_of repo)) = Resolved prs ->
  In pr prs ->
  User.login (Pull.user pr) = GITHUB_USERNAME ->
  exists body p,
    api_prs = {| Reply.status := 200; Reply.body := PullRequests body |} /\
    In p body /\
    pr_key p = (repo, Pull.number pr) /\
    (forall e,
        githubRequest
          (pull_reviews (owner_of repo) (repoName_of repo) (Pull.number pr))
        = Rejected e \/
        githubRequest
          (pull_requested_reviewers (owner_of repo) (repoName_of repo)
             (Pull.number pr)) = Rejected e ->
        PullRequest.reviews p = ReviewSummary.empty) /\
    (forall e,
        githubRequest
          (issue_comments (owner_of repo) (repoName_of repo) (Pull.number pr))
        = Rejected e \/
        githubRequest
          (pull_comments (owner_of repo) (repoName_of repo) (Pull.number pr))
        = Rejected e ->
        PullRequest.latest_comment p = None) /\
    (forall e,
        githubRequest
          (runs_by_head_sha (owner_of repo) (repoName_of repo)
             (Branch.sha (Pull.head pr))) = Rejected e ->
        PullRequest.workflows p = []).
Proof.
  intros Hrepo Hprs Hpr Hlogin.
  destruct (allPRs_complete repo pr Hrepo) as (rv & lc & wf & Hrv & Hlc & Hwf & Hin).
  { apply In_userPRs_of. exists prs. auto. }
  exists (Array_sort (newest_first PullRequest.created_at) allPRs),
    (pull_request repo pr rv lc wf).
  split; [apply api_prs_reply|]. split; [now apply Array_sort_In|].
  split; [reflexivity|].
  cbn [PullRequest.reviews PullRequest.latest_comment PullRequest.workflows
         pull_request].
  split; [|split].
  - intros e He. unfold getPRReviews in Hrv.
    destruct He as [He | He]; rewrite He in Hrv.
    + cbn in Hrv. now injection Hrv as <-.
    + destruct (githubRequest (pull_reviews _ _ _)); cbn in Hrv;
        now injection Hrv as <-.
  - intros e He. unfold getLatestPRComment in Hlc.
    destruct He as [He | He]; rewrite He in Hlc.
    + cbn in Hlc. now injection Hlc as <-.
    + destruct (githubRequest (issue_comments _ _ _)); cbn in Hlc;
        now injection Hlc as <-.
  - intros e He. unfold getPRWorkflows in Hwf. rewrite He in Hwf.
    cbn in Hwf. now injection Hwf as <-.
Qed.

(** X13. Every record of the reply comes from one pull request that a
    configured repository lists as open and that the user wrote: it carries
    that repository, the fields of that pull request, and the results of the
    three helpers called for that pull request and no other. *)
Theorem api_prs_records_origin :
  exists body,
    api_prs = {| Reply.status := 200; Reply.body := PullRequests body |} /\
    forall p,
      In p body ->
      exists repo prs pr,
        In repo REPOSITORIES /\
        githubRequest (pulls_open (owner_of repo) (repoName_of repo))
        = Resolved prs /\
        In pr prs /\
        User.login (Pull.user pr) = GITHUB_USERNAME /\
        getPRReviews (owner_of repo) (repoName_of repo) (Pull.number pr)
        = Resolved (PullRequest.reviews p) /\
        getLatestPRComment (owner_of repo) (repoName_of repo) (Pull.number pr)
        = Resolved (PullRequest.latest_comment p) /\
        getPRWorkflows (owner_of repo) (repoName_of repo) (Pull.number pr)
          (Branch.sha (Pull.head pr))
        = Resolved (PullRequest.workflows p) /\
        p = pull_request repo pr (PullRequest.reviews p)
              (PullRequest.latest_comment p) (PullRequest.workflows p).
Proof.
  eexists. split; [apply api_prs_reply|].
  intros p Hp. apply Array_sort_In, In_allPRs in Hp.
  destruct Hp as (repo & pr & Hrepo & Hpr & Hp).
  destruct (visit_pr_pushes repo (owner_of repo) (repoName_of repo) pr)
    as (rv & lc & wf & Hrv & Hlc & Hwf & Hpush).
  unfold pushed_by in Hp. rewrite Hpush in Hp. destruct Hp as [<- | []].
  apply In_userPRs_of in Hpr. destruct Hpr as (prs & Hprs & Hin & Hlogin).
  exists repo, prs, pr. cbn [PullRequest.reviews PullRequest.latest_comment
                              PullRequest.workflows pull_request].
  auto 10.
Qed.

(** ** Properties of the start-up and of [repo.split('/')] *)

Lemma String_split_lacks (sep : ascii) (s : string) :
  lacks sep s = true -> String_split sep s = [s].
Proof.
  induction s as [|c s IH]; [reflexivity|].
  cbn [lacks String_split]. intros H. apply andb_true_iff in H.
  destruct H as [Hc Hs]. apply negb_true_iff in Hc. rewrite Hc.
  now rewrite (IH Hs).
Qed.

Lemma String_split_append (sep : ascii) (a b : string) :
  lacks sep a = true ->
  String_split sep (a ++ String sep b)%string = a :: String_split sep b.
Proof.
  induction a as [|c a IH]; cbn [lacks String_split append].
  - intros _. now rewrite Ascii.eqb_refl.
  - intros H. apply andb_true_iff in H. destruct H as [Hc Ha].
    apply negb_true_iff in Hc. rewrite Hc. now rewrite (IH Ha).
Qed.

(** X14. An entry [owner/name] of [REPOSITORIES] is taken apart into its
    two names; anything after a second slash is dropped. *)
Theorem repository_entry_splits (owner name : string) :
  lacks "/" owner = true ->
  lacks "/" name = true ->
  owner_of (owner ++ "/" ++ name)%string = owner /\
  repoName_of (owner ++ "/" ++ name)%string = name /\
  forall rest,
    owner_of (owner ++ "/" ++ name ++ "/" ++ rest)%string = owner /\
    repoName_of (owner ++ "/" ++ name ++ "/" ++ rest)%string = name.
Proof.
  intros Howner Hname. unfold owner_of, repoName_of.
  cbn [append].
  split; [|split; [|intro rest; split]];
    rewrite String_split_append by assumption.
  - reflexivity.
  - now rewrite String_split_lacks.
  - reflexivity.
  - now rewrite String_split_append.
Qed.

(** X15. For an entry without a slash the repository name is [undefined]:
    the open pull requests asked for are those of the repository called
    [undefined] of the owner the entry names. *)
Theorem repository_entry_without_slash (repo : string) :
  lacks "/" repo = true ->
  owner_of repo = repo /\
  repoName_of repo = "undefined" /\
  open_pulls repo
  = match githubRequest (pulls_open repo "undefined") with
    | Resolved prs => prs
    | Rejected _ => []
    end.
Proof.
  intros Hrepo.
  assert (Howner : owner_of repo = repo)
    by (unfold owner_of; now rewrite String_split_lacks).
  assert (Hname : repoName_of repo = "undefined")
    by (unfold repoName_of; now rewrite String_split_lacks).
  split; [exact Howner|]. split; [exact Hname|].
  unfold open_pulls. now rewrite Howner, Hname.
Qed.

Lemma String_split_concat (sep : ascii) (x : string) (l : list string) :
  Forall (fun s => lacks sep s = true) (x :: l) ->
  String_split sep (String.concat (String sep EmptyString) (x :: l)) = x :: l.
Proof.
  revert x. induction l as [|y l IH]; intros x Hall.
  - cbn [String.concat]. apply String_split_lacks. now inversion Hall.
  - inversion Hall as [|? ? Hx Hrest]; subst.
    cbn [String.concat]. cbn [append].
    rewrite String_split_append by assumption.
    f_equal. apply (IH y Hrest).
Qed.

(** X16. [REPOSITORIES] read from the environment: a missing or empty
    variable gives no repository, and a comma-separated list gives back its
    entries, one per comma, an empty entry included. *)
Theorem REPOSITORIES_of_env_round_trip :
  REPOSITORIES_of_env None = [] /\
  REPOSITORIES_of_env (Some "") = [] /\
  forall entries,
    Forall (fun s => lacks "," s = true) entries ->
    entries <> [""] ->
    REPOSITORIES_of_env (Some (String.concat "," entries)) = entries.
Proof.
  split; [reflexivity|]. split; [reflexivity|].
  intros entries Hall Hne. unfold REPOSITORIES_of_env.
  destruct entries as [|x l]; [reflexivity|].
  cbn [template_of].
  rewrite (String_split_concat "," x l Hall).
  unfold truthy.
  destruct (String.concat "," (x :: l)) as [|c rest] eqn:E; [|reflexivity].
  exfalso. apply Hne.
  destruct l as [|y l]; cbn [String.concat] in E.
  - now rewrite E.
  - destruct x; discriminate E.
Qed.

(** ** Properties of the dashboard script *)

(** X17. [formatDate] by the age of a readable timestamp: under a minute,
    and for a timestamp in the future, [just now]; then whole minutes from 1
    to 59, whole hours from 1 to 23, whole days from 1 to 6; from seven days
    on, the date in words.  An unreadable timestamp is never given an age:
    it goes to [toLocaleDateString]. *)
Theorem formatDate_by_age (now : Z) (dateString : string) :
  (forall t,
      Date_parse dateString = Some t ->
      let age := now - t in
      (age < 60000 -> formatDate now dateString = "just now") /\
      (60000 <= age < 3600000 ->
       formatDate now dateString
       = (Number_toString (age / 60000) ++ "m ago")%string /\
       1 <= age / 60000 <= 59) /\
      (3600000 <= age < 86400000 ->
       formatDate now dateString
       = (Number_toString (age / 3600000) ++ "h ago")%string /\
       1 <= age / 3600000 <= 23) /\
      (86400000 <= age < 604800000 ->
       formatDate now dateString
       = (Number_toString (age / 86400000) ++ "d ago")%string /\
       1 <= age / 86400000 <= 6) /\
      (604800000 <= age ->
       formatDate now dateString
       = Date_toLocaleDateString (Some t)
           (Number_strict_neq (Date_getFullYear (Some t))
              (Date_getFullYear (Some now))))) /\
  (Date_parse dateString = None ->
   formatDate now dateString
   = Date_toLocaleDateString None
       (Number_strict_neq (Date_getFullYear None) (Date_getFullYear (Some now)))).
Proof.
  split.
  - intros t Ht age. unfold formatDate. rewrite Ht.
    cbn [Number_sub Number_floor_div option_map Number_lt template_of_Number].
    fold age. clear - age.
    destruct (Z.ltb_spec (age / 60000) 1) as [Hm1|Hm1];
      [|destruct (Z.ltb_spec (age / 60000) 60) as [Hm60|Hm60];
        [|destruct (Z.ltb_spec (age / 3600000) 24) as [Hh|Hh];
          [|destruct (Z.ltb_spec (age / 86400000) 7) as [Hd|Hd]]]];
      repeat split; intros; try reflexivity;
      Z.to_euclidean_division_equations; lia.
  - intros Hnone. unfold formatDate. rewrite Hnone. reflexivity.
Qed.

(** X18. The icon and the text of a run go together: the success icon is
    shown exactly for a completed run that succeeded and comes with
    [Success]; the failure icon comes with [Failed] or [Timed Out], the
    cancelled icon with [Cancelled], the in-progress icon with [In Progress]
    or [Queued]; a completed run with any other conclusion, a missing one
    included, has the pending icon and the text [Completed]. *)
Theorem status_icon_and_text_agree (status : string) (conclusion : option string) :
  (getStatusIcon status conclusion = status_icon "success" <->
   status = "completed" /\ conclusion = Some "success") /\
  (getStatusIcon status conclusion = status_icon "success" ->
   getStatusText status conclusion = "Success") /\
  (getStatusIcon status conclusion = status_icon "failure" ->
   getStatusText status conclusion = "Failed" \/
   getStatusText status conclusion = "Timed Out") /\
  (getStatusIcon status conclusion = status_icon "cancelled" ->
   getStatusText status conclusion = "Cancelled") /\
  (getStatusIcon status conclusion = status_icon "in_progress" ->
   getStatusText status conclusion = "In Progress" \/
   getStatusText status conclusion = "Queued") /\
  (status = "completed" ->
   getStatusIcon status conclusion = status_icon "pending" ->
   getStatusText status conclusion = "Completed").
Proof.
  unfold getStatusIcon, getStatusText.
  destruct (String.eqb_spec status "in_progress") as [-> | Hprogress];
    [|destruct (String.eqb_spec status "queued") as [-> | Hqueued];
      [|cbn [orb];
        destruct (String.eqb_spec status "completed") as [-> | Hcompleted];
        [destruct conclusion as [c|];
         [destruct (String.eqb_spec c "success") as [-> | Hs];
          [|destruct (String.eqb_spec c "failure") as [-> | Hf];
            [|destruct (String.eqb_spec c "timed_out") as [-> | Ht];
              [|cbn [orb];
                destruct (String.eqb_spec c "cancelled") as [-> | Hc]]]]|]|]]];
    cbn;
    repeat match goal with
           | |- _ /\ _ => split
           | |- _ <-> _ => split
           end;
    intros;
    repeat match goal with
           | H : _ /\ _ |- _ => destruct H
           | H : Some _ = Some _ |- _ => injection H as H
           end;
    subst;
    try match goal with
        | H : ?x <> ?x |- _ => now elim H
        end;
    try match goal with
        | H : _ = _ |- _ => discriminate H
        end;
    auto.
Qed.

Lemma Array_indexOf_range (l : list string) (x : string) :
  Array_indexOf l x = -1 \/ 0 <= Array_indexOf l x < Z.of_nat (List.length l).
Proof.
  induction l as [|y l IH]; cbn [Array_indexOf List.length]; [now left|].
  destruct (y =? x)%string; [right; clear; lia|].
  destruct (Z.ltb_spec (Array_indexOf l x) 0) as [Hneg | Hpos]; [now left|].
  right. clear - IH Hpos. lia.
Qed.

Lemma Array_indexOf_absent (l : list string) (x : string) :
  Array_indexOf l x = -1 <-> ~ In x l.
Proof.
  induction l as [|y l IH]; cbn [Array_indexOf In].
  - split; [intros _ [] | reflexivity].
  - destruct (String.eqb_spec y x) as [-> | Hne].
    + split; [intros H; discriminate H | intros H; elim H; now left].
    + destruct (Z.ltb_spec (Array_indexOf l x) 0) as [Hneg | Hpos].
      * split; [|reflexivity]. intros _ [H | H]; [now elim Hne|].
        revert H. apply IH.
        destruct (Array_indexOf_range l x) as [Hi | Hi]; [exact Hi|].
        exfalso. clear - Hneg Hi. lia.
      * split.
        -- intros H. exfalso. clear - H Hpos. lia.
        -- intros H. exfalso.
           assert (Hout : Array_indexOf l x = -1)
             by (apply IH; intros Hin; apply H; now right).
           clear - Hout Hpos. lia.
Qed.

Lemma Array_indexOf_nth (l : list string) (i : nat) (x : string) :
  NoDup l -> nth_error l i = Some x -> Array_indexOf l x = Z.of_nat i.
Proof.
  revert i. induction l as [|y l IH]; intros [|i] Hnodup Hnth;
    cbn [nth_error] in Hnth; try discriminate Hnth.
  - injection Hnth as ->. cbn [Array_indexOf]. now rewrite String.eqb_refl.
  - inversion Hnodup as [|? ? Hnotin Hnodup']; subst.
    cbn [Array_indexOf].
    destruct (String.eqb_spec y x) as [-> | Hne].
    + elim Hnotin. now apply (nth_error_In l i).
    + rewrite (IH i Hnodup' Hnth).
      destruct (Z.ltb_spec (Z.of_nat i) 0) as [Hneg | Hpos]; clear - Hneg || clear - Hpos;
        lia.
Qed.

Lemma repo_class_number_inj (a b : Z) :
  0 <= a <= 8 -> 0 <= b <= 8 ->
  ("repo-" ++ Number_toString a)%string = ("repo-" ++ Number_toString b)%string ->
  a = b.
Proof.
  intros Ha Hb.
  assert (Ea : a = 0 \/ a = 1 \/ a = 2 \/ a = 3 \/ a = 4 \/ a = 5 \/ a = 6
               \/ a = 7 \/ a = 8) by (clear - Ha; lia).
  assert (Eb : b = 0 \/ b = 1 \/ b = 2 \/ b = 3 \/ b = 4 \/ b = 5 \/ b = 6
               \/ b = 7 \/ b = 8) by (clear - Hb; lia).
  clear Ha Hb.
  repeat match goal with
         | H : _ \/ _ |- _ => destruct H as [-> | H]
         end; subst; intros H; try reflexivity; vm_compute in H; discriminate H.
Qed.

(** X19. The colour class of a pull request, for a list of repositories
    without repetition: a repository that is not in the list gets [repo-0]
    and no other does; the repository at place [i] (from 0) gets the class
    of number [i + 1], capped at 8; so the first eight repositories have
    eight different classes and every later one shares [repo-8] with the
    eighth. *)
Theorem repoClass_palette (repositories : list string) :
  NoDup repositories ->
  (forall repository,
      repoClass repositories repository = "repo-0" <->
      ~ In repository repositories) /\
  (forall i repository,
      nth_error repositories i = Some repository ->
      repoClass repositories repository
      = ("repo-" ++ Number_toString (Z.min (Z.of_nat i + 1) 8))%string) /\
  (forall i j first second,
      (i < 8)%nat -> (j < 8)%nat -> i <> j ->
      nth_error repositories i = Some first ->
      nth_error repositories j = Some second ->
      repoClass repositories first <> repoClass repositories second) /\
  (forall i repository,
      (7 <= i)%nat ->
      nth_error repositories i = Some repository ->
      repoClass repositories repository = "repo-8").
Proof.
  intros Hnodup.
  assert (Hplace : forall i repository,
             nth_error repositories i = Some repository ->
             repoClass repositories repository
             = ("repo-" ++ Number_toString (Z.min (Z.of_nat i + 1) 8))%string).
  { intros i repository Hnth. unfold repoClass.
    now rewrite (Array_indexOf_nth repositories i repository Hnodup Hnth). }
  split; [|split; [exact Hplace|split]].
  - intro repository. rewrite <- Array_indexOf_absent. unfold repoClass. split.
    + intros H. change "repo-0" with ("repo-" ++ Number_toString 0)%string in H.
      apply repo_class_number_inj in H.
      * destruct (Array_indexOf_range repositories repository) as [Hi | Hi];
          [exact Hi|]. exfalso. clear - H Hi. lia.
      * destruct (Array_indexOf_range repositories repository) as [Hi | Hi];
          clear - Hi; lia.
      * clear; lia.
    + intros ->. reflexivity.
  - intros i j first second Hi Hj Hij Hfirst Hsecond.
    rewrite (Hplace i first Hfirst), (Hplace j second Hsecond). intros H.
    apply repo_class_number_inj in H; clear - Hi Hj Hij H; lia.
  - intros i repository Hi Hnth. rewrite (Hplace i repository Hnth).
    replace (Z.min (Z.of_nat i + 1) 8) with 8 by (clear - Hi; lia).
    reflexivity.
Qed.

Lemma loadData_loaded
  (prsFetch : result (Response.t (list PullRequest.t)))
  (workflowsFetch : result (Response.t (list StandaloneRun.t)))
  (prs : list PullRequest.t) (workflows : list StandaloneRun.t) (page : Page.t) :
  feed_loaded prsFetch prs -> feed_loaded workflowsFetch workflows ->
  loadData prsFetch workflowsFetch page
  = (page_loaded prs workflows page, Resolved tt).
Proof.
  intros (r1 & -> & Hok1 & Hjson1) (r2 & -> & Hok2 & Hjson2).
  unfold loadData, bind, try_catch, await, showLoading, renderPRs,
    renderWorkflows, modify, ret. cbn [Promise_all2].
  rewrite Hok1, Hok2. cbn [negb orb]. rewrite Hjson1, Hjson2. reflexivity.
Qed.

Lemma loadData_failed
  (prsFetch : result (Response.t (list PullRequest.t)))
  (workflowsFetch : result (Response.t (list StandaloneRun.t))) (page : Page.t) :
  feed_failed prsFetch \/ feed_failed workflowsFetch ->
  loadData prsFetch workflowsFetch page = (page_failed page, Resolved tt).
Proof.
  unfold feed_failed, loadData, bind, try_catch, await, showLoading, showError,
    renderPRs, renderWorkflows, modify, ret.
  destruct prsFetch as [r1|e1], workflowsFetch as [r2|e2]; cbn [Promise_all2];
    try (intros _; reflexivity).
  destruct (Response.ok r1) eqn:Eok1, (Response.ok r2) eqn:Eok2; cbn [negb orb];
    try (intros _; reflexivity).
  destruct (Response.json r1) as [prs|e1] eqn:Ej1; [|intros _; reflexivity].
  destruct (Response.json r2) as [wfs|e2] eqn:Ej2; [|intros _; reflexivity].
  intros [[H | (e & H)] | [H | (e & H)]]; discriminate H.
Qed.

(** X20. A load either goes through or fails as a whole.  When both feeds
    arrive, the button is enabled again under its refresh label and both
    containers are rendered anew.  When one feed does not arrive (a failed
    request, an answer that is not [ok], a body that does not parse), both
    containers show the error message, also the one whose feed arrived, and
    the button stays disabled under its loading label.  The load itself
    never throws. *)
Theorem loadData_all_or_nothing
  (prsFetch : result (Response.t (list PullRequest.t)))
  (workflowsFetch : result (Response.t (list StandaloneRun.t))) (page : Page.t) :
  (forall prs workflows,
      feed_loaded prsFetch prs -> feed_loaded workflowsFetch workflows ->
      loadData prsFetch workflowsFetch page
      = (page_loaded prs workflows page, Resolved tt)) /\
  (feed_failed prsFetch \/ feed_failed workflowsFetch ->
   loadData prsFetch workflowsFetch page = (page_failed page, Resolved tt)) /\
  snd (loadData prsFetch workflowsFetch page) = Resolved tt.
Proof.
  split; [|split].
  - intros prs workflows. apply loadData_loaded.
  - apply loadData_failed.
  - destruct prsFetch as [r1|e1].
    + destruct (Response.ok r1) eqn:Eok1.
      * destruct (Response.json r1) as [prs|e] eqn:Ej1.
        -- destruct workflowsFetch as [r2|e2].
           ++ destruct (Response.ok r2) eqn:Eok2.
              ** destruct (Response.json r2) as [wfs|e] eqn:Ej2.
                 --- rewrite (loadData_loaded _ _ prs wfs);
                       [reflexivity | exists r1; auto | exists r2; auto].
                 --- rewrite loadData_failed; [reflexivity|].
                     right. cbn. right. now exists e.
              ** rewrite loadData_failed; [reflexivity|]. right. cbn. now left.
           ++ rewrite loadData_failed; [reflexivity|]. right. exact I.
        -- rewrite loadData_failed; [reflexivity|]. left. cbn. right. now exists e.
      * rewrite loadData_failed; [reflexivity|]. left. cbn. now left.
    + rewrite loadData_failed; [reflexivity|]. left. exact I.
Qed.

(** X21. Failures of the upstream service never bring the error message to
    the page: when the browser receives the replies of [/api/prs] and
    [/api/workflows] as the server gives them, both feeds arrive whatever
    the upstream requests did, and the load renders the two lists and
    enables the button. *)
Theorem loadData_renders_whatever_upstream_does (now : Z)
  (prsFetch : result (Response.t (list PullRequest.t)))
  (workflowsFetch : result (Response.t (list StandaloneRun.t))) (page : Page.t) :
  (forall prs,
      Reply.body api_prs = PullRequests prs ->
      served_as (Reply.status api_prs) prs prsFetch) ->
  (forall workflows,
      WorkflowsReply.body (api_workflows now) = StandaloneRuns workflows ->
      served_as (WorkflowsReply.status (api_workflows now)) workflows workflowsFetch) ->
  exists prs workflows,
    Reply.body api_prs = PullRequests prs /\
    WorkflowsReply.body (api_workflows now) = StandaloneRuns workflows /\
    loadData prsFetch workflowsFetch page
    = (page_loaded prs workflows page, Resolved tt).
Proof.
  intros Hprs Hworkflows.
  assert (Hruns : api_workflows now
                  = {| WorkflowsReply.status := 200;
                       WorkflowsReply.body :=
                         StandaloneRuns
                           (Array_sort (newest_first StandaloneRun.created_at)
                              (allRuns (Date_setDate_back LocalTZA 3 now))) |})
    by (unfold api_workflows; now rewrite getUserWorkflows_result).
  rewrite api_prs_reply in *. rewrite Hruns in *.
  cbn [Reply.body Reply.status WorkflowsReply.body WorkflowsReply.status] in *.
  destruct (Hprs _ eq_refl) as (r1 & Hf1 & _ & Hok1 & Hjson1).
  destruct (Hworkflows _ eq_refl) as (r2 & Hf2 & _ & Hok2 & Hjson2).
  do 2 eexists. split; [reflexivity|]. split; [reflexivity|].
  apply loadData_loaded; [exists r1 | exists r2]; auto.
Qed.

Lemma loadData_keeps_configuration
  (prsFetch : result (Response.t (list PullRequest.t)))
  (workflowsFetch : result (Response.t (list StandaloneRun.t))) (page : Page.t) :
  Page.repositories (fst (loadData prsFetch workflowsFetch page))
  = Page.repositories page /\
  Page.username_textContent (fst (loadData prsFetch workflowsFetch page))
  = Page.username_textContent page.
Proof.
  unfold loadData, bind, try_catch, await, showLoading, showError,
    renderPRs, renderWorkflows, modify, ret.
  destruct prsFetch as [r1|e1], workflowsFetch as [r2|e2]; cbn [Promise_all2];
    try (split; reflexivity).
  destruct (Response.ok r1), (Response.ok r2); cbn [negb orb];
    try (split; reflexivity).
  destruct (Response.json r1); [|split; reflexivity].
  destruct (Response.json r2); split; reflexivity.
Qed.

(** X22. [init] with and without a configuration.  A configuration whose
    body parses is taken as it is, whether its answer is [ok] or not: the
    user name and the repositories of the page are set from it before the
    data is loaded.  When the configuration request fails or its body does
    not parse, the data is loaded all the same on the page as it was; the
    load leaves the repositories alone, so on a page that starts with none
    every pull request gets the colour class [repo-0]. *)
Theorem init_with_and_without_configuration
  (configFetch : result (Response.t Config.t))
  (prsFetch : result (Response.t (list PullRequest.t)))
  (workflowsFetch : result (Response.t (list StandaloneRun.t))) (page : Page.t) :
  (forall response config,
      configFetch = Resolved response ->
      Response.json response = Resolved config ->
      init configFetch prsFetch workflowsFetch page
      = loadData prsFetch workflowsFetch (page_configured config page) /\
      Page.repositories (fst (init configFetch prsFetch workflowsFetch page))
      = Config.repositories config) /\
  ((exists e, configFetch = Rejected e) \/
   (exists response e,
       configFetch = Resolved response /\ Response.json response = Rejected e) ->
   init configFetch prsFetch workflowsFetch page
   = loadData prsFetch workflowsFetch page /\
   (Page.repositories page = [] ->
    forall repository,
      repoClass
        (Page.repositories (fst (init configFetch prsFetch workflowsFetch page)))
        repository = "repo-0")).
Proof.
  split.
  - intros response config -> Hjson.
    assert (Hinit : init (Resolved response) prsFetch workflowsFetch page
                    = loadData prsFetch workflowsFetch (page_configured config page)).
    { unfold init, loadConfig, bind at 1, try_catch, bind, await, modify.
      rewrite Hjson. reflexivity. }
    split; [exact Hinit|]. rewrite Hinit.
    now rewrite (proj1 (loadData_keeps_configuration _ _ _)).
  - intros Hfailed.
    assert (Hinit : init configFetch prsFetch workflowsFetch page
                    = loadData prsFetch workflowsFetch page).
    { destruct Hfailed as [(e & ->) | (response & e & -> & Hjson)];
        unfold init, loadConfig, bind at 1, try_catch, bind, await, modify, ret;
        [|rewrite Hjson]; reflexivity. }
    split; [exact Hinit|]. intros Hnone repository. rewrite Hinit.
    rewrite (proj1 (loadData_keeps_configuration _ _ _)), Hnone. reflexivity.
Qed.

End Server.

(** ** The properties at the fixture *)

Example fixture_reviews_of_101 :
  getPRReviews Fixture.fetch "acme" "api" 101
  = Resolved
      {| ReviewSummary.approving :=
           [review_entry (Fixture.review "alice" "APPROVED"
                            (Some "2024-05-02T09:00:00Z"))];
         ReviewSummary.changesRequested :=
           [review_entry (Fixture.review "carol" "CHANGES_REQUESTED"
                            (Some "2024-05-02T11:00:00Z"))];
         ReviewSummary.pending := [review_entry (Fixture.review "dave" "PENDING" None)];
         ReviewSummary.requestedUsers :=
           [{| RequestedUser.user := "erin"; RequestedUser.type := "user" |}];
         ReviewSummary.requestedTeams :=
           [{| RequestedTeam.team := "core";
               RequestedTeam.name := "Core maintainers";
               RequestedTeam.type := "team" |}] |}.
Proof. reflexivity. Qed.

Example fixture_latest_comment_of_101 :
  getLatestPRComment Fixture.fetch Date_parse_iso "acme" "api" 101
  = Resolved (Some Fixture.T3).
Proof. reflexivity. Qed.

Example fixture_standalone_runs :
  getUserWorkflows Fixture.fetch Date_parse_iso Fixture.LocalTZA
    Fixture.GITHUB_USERNAME Fixture.REPOSITORIES Fixture.now
  = Resolved [ standalone_run "acme/api" Fixture.run_without_branch;
               standalone_run "acme/api" Fixture.run_two_days_old ].
Proof. reflexivity. Qed.

Example fixture_pull_requests :
  exists body,
    api_prs Fixture.fetch Date_parse_iso Fixture.GITHUB_USERNAME Fixture.REPOSITORIES
    = {| Reply.status := 200; Reply.body := PullRequests body |} /\
    map pr_key body = [("acme/web", 8); ("acme/api", 101); ("acme/web", 7)].
Proof. eexists. split; reflexivity. Qed.

(** C1 fails on the code: alice approved pull request 7 and was then asked
    for another review, so she is in [approving] and in [requestedUsers]. *)
Lemma getPRReviews_names_rerequested_reviewer_twice :
  exists summary,
    getPRReviews Fixture.fetch "acme" "web" 7 = Resolved summary /\
    appears (a_user "alice")
      (map a_user (map ReviewEntry.user (ReviewSummary.approving summary))) = true /\
    appears (a_user "alice")
      (map a_user (map RequestedUser.user (ReviewSummary.requestedUsers summary)))
    = true /\
    ~ in_one_sequence_at_most summary.
Proof.
  eexists. split; [reflexivity|]. split; [reflexivity|]. split; [reflexivity|].
  intros H. specialize (H (a_user "alice")). vm_compute in H. lia.
Qed.

Lemma getPRReviews_one_sequence_witness :
  upstream_disjoint Fixture.reviews_101 Fixture.requested_101 /\
  exists summary,
    getPRReviews Fixture.fetch "acme" "api" 101 = Resolved summary /\
    in_one_sequence_at_most summary.
Proof.
  assert (Hdisjoint : upstream_disjoint Fixture.reviews_101 Fixture.requested_101).
  { split.
    - intros r1 r2 H1 H2 _ _ Hlogin. simpl in H1, H2.
      repeat match goal with
             | H : _ \/ _ |- _ => destruct H as [<- | H]
             | H : False |- _ => destruct H
             end; try reflexivity; vm_compute in Hlogin; discriminate Hlogin.
    - intros r u Hr Hc Hu Hlogin. simpl in Hr, Hu.
      repeat match goal with
             | H : _ \/ _ |- _ => destruct H as [<- | H]
             | H : False |- _ => destruct H
             end; vm_compute in Hlogin; discriminate Hlogin. }
  split; [exact Hdisjoint|].
  apply (getPRReviews_one_sequence_when_upstream_disjoint Fixture.fetch "acme" "api" 101).
  intros reviews requestedReviewers Hreviews Hrequested.
  vm_compute in Hreviews, Hrequested.
  injection Hreviews as <-. injection Hrequested as <-. exact Hdisjoint.
Defined.

(** C2 fails on the code: in the week the clocks go back, [threeDaysAgo]
    is 73 hours before the call, and a run created 72 hours and 30 minutes
    before the call, older than three days, is in the result. *)
Lemma getUserWorkflows_keeps_run_older_than_72_hours :
  exists t runs,
    Date_parse_iso (Run.created_at Autumn.run_72h30_old) = Some t /\
    t < Autumn.now - 3 * msPerDay /\
    Date_setDate_back Autumn.LocalTZA 3 Autumn.now = Autumn.now - 73 * 3600000 /\
    getUserWorkflows Autumn.fetch Date_parse_iso Autumn.LocalTZA
      Fixture.GITHUB_USERNAME ["acme/api"] Autumn.now = Resolved runs /\
    In (standalone_run "acme/api" Autumn.run_72h30_old) runs.
Proof.
  exists 1730547000000, [standalone_run "acme/api" Autumn.run_72h30_old].
  split; [reflexivity|]. split; [reflexivity|]. split; [reflexivity|].
  split; [reflexivity|]. left. reflexivity.
Qed.

Lemma getUserWorkflows_three_calendar_days_witness :
  Z.abs (Fixture.LocalTZA Fixture.now true
         - Fixture.LocalTZA
             (LocalTime Fixture.LocalTZA Fixture.now - 3 * msPerDay) false)
  < msPerDay /\
  exists runs,
    getUserWorkflows Fixture.fetch Date_parse_iso Fixture.LocalTZA
      Fixture.GITHUB_USERNAME Fixture.REPOSITORIES Fixture.now = Resolved runs /\
    In (standalone_run "acme/api" Fixture.run_two_days_old) runs /\
    ~ In (standalone_run "acme/api" Fixture.run_four_days_old) runs.
Proof.
  assert (Hzone :
           Z.abs (Fixture.LocalTZA Fixture.now true
                  - Fixture.LocalTZA
                      (LocalTime Fixture.LocalTZA Fixture.now - 3 * msPerDay) false)
           < msPerDay) by (vm_compute; reflexivity).
  split; [exact Hzone|].
  destruct (getUserWorkflows_three_calendar_days Fixture.fetch Date_parse_iso
              Fixture.LocalTZA Fixture.GITHUB_USERNAME Fixture.REPOSITORIES
              Fixture.now)
    as (runs & Hruns & _ & _ & _ & _ & Hbounded).
  destruct (Hbounded Hzone) as [Hfour Htwo].
  exists runs. split; [exact Hruns|]. split.
  - apply (Htwo "acme/api" Fixture.actor_runs Fixture.run_two_days_old).
    + left. reflexivity.
    + reflexivity.
    + right. left. reflexivity.
    + reflexivity.
    + reflexivity.
    + reflexivity.
  - intros Hin. apply (Hfour _ Hin). reflexivity.
Defined.

Lemma getLatestPRComment_newest_of_both_witness :
  exists c t,
    In c ([Fixture.comment 1 Fixture.T1; Fixture.comment 3 Fixture.T3]
          ++ [Fixture.comment 2 Fixture.T2]) /\
    getLatestPRComment Fixture.fetch Date_parse_iso "acme" "api" 101
    = Resolved (Some (Comment.created_at c)) /\
    Date_parse_iso (Comment.created_at c) = Some t /\
    Date_parse_iso Fixture.T3 = Some t.
Proof.
  destruct (getLatestPRComment_newest_of_both Fixture.fetch Date_parse_iso
              "acme" "api" 101) as [Hfetched _].
  destruct (Hfetched [Fixture.comment 1 Fixture.T1; Fixture.comment 3 Fixture.T3]
              [Fixture.comment 2 Fixture.T2] eq_refl eq_refl) as [_ Hnewest].
  - intros c Hc. simpl in Hc.
    repeat match goal with
           | H : _ \/ _ |- _ => destruct H as [<- | H]
           | H : False |- _ => destruct H
           end; vm_compute; discriminate.
  - destruct Hnewest as (c & t & Hin & Hlatest & Htime & Hmax); [discriminate|].
    exists c, t. repeat split; try assumption.
    assert (Hvalue : getLatestPRComment Fixture.fetch Date_parse_iso "acme" "api" 101
                     = Resolved (Some Fixture.T3)) by reflexivity.
    rewrite Hvalue in Hlatest. injection Hlatest as Hc.
    rewrite <- Htime, <- Hc. reflexivity.
Defined.

(** C4 fails on the code: the reviews of pull request 101 are fetched, alice
    among them with the state [APPROVED], but the requested reviewers are
    not, and [approving] is empty. *)
Lemma getPRReviews_drops_fetched_approval :
  exists summary,
    githubRequest Outage.fetch (pull_reviews "acme" "api" 101)
    = Resolved Fixture.reviews_101 /\
    In (Fixture.review "alice" "APPROVED" (Some "2024-05-02T09:00:00Z"))
      Fixture.reviews_101 /\
    getPRReviews Outage.fetch "acme" "api" 101 = Resolved summary /\
    ReviewSummary.approving summary = [].
Proof.
  exists ReviewSummary.empty.
  split; [reflexivity|]. split; [left; reflexivity|].
  split; reflexivity.
Qed.

Lemma getPRReviews_classifies_by_state_witness :
  exists summary,
    getPRReviews Fixture.fetch "acme" "api" 101 = Resolved summary /\
    ReviewSummary.approving summary
    = [review_entry (Fixture.review "alice" "APPROVED" (Some "2024-05-02T09:00:00Z"))]
    /\
    ReviewSummary.changesRequested summary
    = [review_entry (Fixture.review "carol" "CHANGES_REQUESTED"
                       (Some "2024-05-02T11:00:00Z"))] /\
    ReviewSummary.pending summary
    = [review_entry (Fixture.review "dave" "PENDING" None)].
Proof.
  destruct (getPRReviews_classifies_by_state Fixture.fetch "acme" "api" 101
              [Fixture.review "alice" "APPROVED" (Some "2024-05-02T09:00:00Z")]
              [Fixture.review "carol" "CHANGES_REQUESTED" (Some "2024-05-02T11:00:00Z");
               Fixture.review "dave" "PENDING" None;
               Fixture.review "frank" "DISMISSED" (Some "2024-05-02T12:00:00Z")]
              (Fixture.review "bob" "COMMENTED" (Some "2024-05-02T10:00:00Z"))
              eq_refl)
    as [Hanswered _].
  destruct (Hanswered Fixture.requested_101 eq_refl)
    as (summary & Hsummary & Ha & Hc & Hp & _).
  exists summary. split; [exact Hsummary|].
  rewrite Ha, Hc, Hp. repeat split; reflexivity.
Defined.

Lemma getUserWorkflows_drops_pull_refs_witness :
  exists runs,
    getUserWorkflows Fixture.fetch Date_parse_iso Fixture.LocalTZA
      Fixture.GITHUB_USERNAME Fixture.REPOSITORIES Fixture.now = Resolved runs /\
    ~ In (standalone_run "acme/api" Fixture.run_on_pull_ref) runs /\
    visit_run Date_parse_iso 0 "acme/api" Fixture.run_on_pull_ref []
    = ([], Resolved tt).
Proof.
  destruct (getUserWorkflows_drops_pull_refs Fixture.fetch Date_parse_iso
              Fixture.LocalTZA Fixture.GITHUB_USERNAME Fixture.REPOSITORIES
              Fixture.now) as (runs & Hruns & Hnone & Hskip).
  exists runs. split; [exact Hruns|]. split.
  - intros Hin.
    pose proof (Hnone _ "refs/pull/42/merge" Hin eq_refl) as Hprefix.
    vm_compute in Hprefix. discriminate Hprefix.
  - apply (Hskip 0 "acme/api" Fixture.run_on_pull_ref "refs/pull/42/merge");
      reflexivity.
Defined.


Lemma api_prs_survives_failed_repository_witness :
  githubRequest Fixture.fetch (pulls_open "acme" "gone")
  = Rejected "GitHub API error: 404 Not Found - Not Found" /\
  exists body,
    api_prs Fixture.fetch Date_parse_iso Fixture.GITHUB_USERNAME Fixture.REPOSITORIES
    = {| Reply.status := 200; Reply.body := PullRequests body |} /\
    (forall p, In p body -> PullRequest.repository p <> "acme/gone") /\
    exists reviews latestComment workflows,
      In (pull_request "acme/web" Fixture.pr8 reviews latestComment workflows) body.
Proof.
  split; [reflexivity|].
  destruct (api_prs_survives_failed_repository Fixture.fetch Date_parse_iso
              Fixture.GITHUB_USERNAME Fixture.REPOSITORIES "acme/gone"
              "GitHub API error: 404 Not Found - Not Found" eq_refl)
    as (_ & body & Hbody & Hnone & Hothers).
  exists body. split; [exact Hbody|]. split; [exact Hnone|].
  destruct (Hothers "acme/web" [Fixture.pr7; Fixture.pr8] Fixture.pr8)
    as (rv & lc & wf & _ & _ & _ & Hin).
  - right. right. left. reflexivity.
  - reflexivity.
  - right. left. reflexivity.
  - reflexivity.
  - exists rv, lc, wf. exact Hin.
Defined.

Lemma api_prs_newest_first_stable_witness :
  (forall repo pr,
      In repo Fixture.REPOSITORIES ->
      In pr (userPRs_of Fixture.fetch Fixture.GITHUB_USERNAME repo) ->
      valid_date Date_parse_iso (Pull.created_at pr)) /\
  exists body,
    api_prs Fixture.fetch Date_parse_iso Fixture.GITHUB_USERNAME Fixture.REPOSITORIES
    = {| Reply.status := 200; Reply.body := PullRequests body |} /\
    StronglySorted (not_older Date_parse_iso PullRequest.created_at) body /\
    map pr_key
      (filter (created_at_time Date_parse_iso PullRequest.created_at 1714557600000)
         body)
    = [("acme/api", 101); ("acme/web", 7)].
Proof.
  assert (Hvalid : forall repo pr,
             In repo Fixture.REPOSITORIES ->
             In pr (userPRs_of Fixture.fetch Fixture.GITHUB_USERNAME repo) ->
             valid_date Date_parse_iso (Pull.created_at pr)).
  { intros repo pr Hrepo Hpr. simpl in Hrepo.
    repeat match goal with
           | H : _ \/ _ |- _ => destruct H as [<- | H]
           | H : False |- _ => destruct H
           end; vm_compute in Hpr;
    repeat match goal with
           | H : _ \/ _ |- _ => destruct H as [<- | H]
           | H : False |- _ => destruct H
           end; vm_compute; discriminate. }
  split; [exact Hvalid|].
  destruct (api_prs_newest_first_stable Fixture.fetch Date_parse_iso
              Fixture.GITHUB_USERNAME Fixture.REPOSITORIES Hvalid)
    as (body & Hbody & Hsorted & _ & Hstable).
  exists body. split; [exact Hbody|]. split; [exact Hsorted|].
  rewrite Hstable. reflexivity.
Defined.

Lemma api_prs_only_user_prs_witness :
  exists body reviews latestComment workflows,
    api_prs Fixture.fetch Date_parse_iso Fixture.GITHUB_USERNAME
      ["acme/docs"; "acme/cli"]
    = {| Reply.status := 200; Reply.body := PullRequests body |} /\
    body = [pull_request "acme/cli" Fixture.pr21 reviews latestComment workflows].
Proof.
  destruct (api_prs_only_user_prs Fixture.fetch Date_parse_iso
              Fixture.GITHUB_USERNAME ["acme/docs"; "acme/cli"])
    as (body & Hbody & _ & _ & Htwo).
  destruct (Htwo "acme/cli" "acme/docs" Fixture.pr21 Fixture.pr31)
    as (rv & lc & wf & Hone).
  - right. reflexivity.
  - reflexivity.
  - reflexivity.
  - reflexivity.
  - vm_compute. discriminate.
  - exists body, rv, lc, wf. split; [exact Hbody | exact Hone].
Defined.

Lemma api_prs_never_500_witness :
  Reply.status
    (api_prs Fixture.fetch Date_parse_iso Fixture.GITHUB_USERNAME
       Fixture.REPOSITORIES) = 200.
Proof.
  apply (api_prs_never_500 Fixture.fetch Date_parse_iso Fixture.GITHUB_USERNAME
           Fixture.REPOSITORIES).
Defined.

(** ** The further properties at the fixtures *)

Lemma getPRReviews_empty_when_a_request_fails_witness :
  githubRequest Outage.fetch (pull_reviews "acme" "api" 101)
  = Resolved Fixture.reviews_101 /\
  getPRReviews Outage.fetch "acme" "api" 101 = Resolved ReviewSummary.empty.
Proof.
  split; [reflexivity|].
  apply (getPRReviews_empty_when_a_request_fails Outage.fetch "acme" "api" 101
           "connect ETIMEDOUT").
  right. reflexivity.
Defined.

Lemma getPRReviews_counts_witness :
  exists summary,
    getPRReviews Fixture.fetch "acme" "api" 101 = Resolved summary /\
    (List.length (ReviewSummary.approving summary)
     + List.length (ReviewSummary.changesRequested summary)
     + List.length (ReviewSummary.pending summary) <= 5)%nat /\
    List.length (ReviewSummary.requestedUsers summary) = 1%nat.
Proof.
  destruct (getPRReviews_counts Fixture.fetch "acme" "api" 101
              Fixture.reviews_101 Fixture.requested_101 eq_refl eq_refl)
    as (summary & Hsummary & Hle & _ & Husers & _).
  exists summary. split; [exact Hsummary|]. split; [exact Hle | exact Husers].
Defined.

Lemma getLatestPRComment_is_a_fetched_timestamp_witness :
  Date_parse_iso "a while ago" = None /\
  exists latest,
    getLatestPRComment Outage.fetch Date_parse_iso "acme" "api" 101
    = Resolved latest /\
    latest <> None.
Proof.
  split; [reflexivity|].
  destruct (getLatestPRComment_is_a_fetched_timestamp Outage.fetch Date_parse_iso
              "acme" "api" 101
              [Fixture.comment 1 "a while ago"] [Fixture.comment 2 Fixture.T2]
              eq_refl eq_refl)
    as (latest & Hlatest & Hnull & _).
  exists latest. split; [exact Hlatest|].
  intros Hnone. apply Hnull in Hnone. discriminate Hnone.
Defined.

Lemma getUserWorkflows_newest_first_stable_witness :
  exists runs,
    getUserWorkflows Autumn.fetch Date_parse_iso Autumn.LocalTZA
      Fixture.GITHUB_USERNAME ["acme/cli"; "acme/api"] Autumn.now = Resolved runs /\
    StronglySorted (not_older Date_parse_iso StandaloneRun.created_at) runs /\
    filter (created_at_time Date_parse_iso StandaloneRun.created_at 1730547000000)
      runs
    = [ standalone_run "acme/cli" Autumn.run_same_time;
        standalone_run "acme/cli" Autumn.run_same_time';
        standalone_run "acme/api" Autumn.run_72h30_old ].
Proof.
  destruct (getUserWorkflows_newest_first_stable Autumn.fetch Date_parse_iso
              Autumn.LocalTZA Fixture.GITHUB_USERNAME ["acme/cli"; "acme/api"]
              Autumn.now)
    as (runs & Hruns & Hsorted & Hties).
  - intros repo run Hrepo Hrun. simpl in Hrepo.
    repeat match goal with
           | H : _ \/ _ |- _ => destruct H as [<- | H]
           | H : False |- _ => destruct H
           end; vm_compute in Hrun;
    repeat match goal with
           | H : _ \/ _ |- _ => destruct H as [<- | H]
           | H : False |- _ => destruct H
           end; vm_compute; discriminate.
  - exists runs. split; [exact Hruns|]. split; [exact Hsorted|].
    rewrite Hties. reflexivity.
Defined.

Lemma getUserWorkflows_survives_failed_repository_witness :
  githubRequest Fixture.fetch (runs_by_actor "acme" "web" "octocat")
  = Rejected "read ECONNRESET" /\
  exists runs,
    getUserWorkflows Fixture.fetch Date_parse_iso Fixture.LocalTZA
      Fixture.GITHUB_USERNAME Fixture.REPOSITORIES Fixture.now = Resolved runs /\
    (forall w, In w runs -> StandaloneRun.repository w <> "acme/web") /\
    In (standalone_run "acme/api" Fixture.run_two_days_old) runs.
Proof.
  split; [reflexivity|].
  destruct (getUserWorkflows_survives_failed_repository Fixture.fetch
              Date_parse_iso Fixture.LocalTZA Fixture.GITHUB_USERNAME
              Fixture.REPOSITORIES Fixture.now "acme/web" "read ECONNRESET" eq_refl)
    as (_ & runs & Hruns & Hnone & Hothers).
  exists runs. split; [exact Hruns|]. split; [exact Hnone|].
  apply (Hothers "acme/api" Fixture.actor_runs Fixture.run_two_days_old).
  - left. reflexivity.
  - reflexivity.
  - right. left. reflexivity.
  - reflexivity.
  - reflexivity.
  - reflexivity.
Defined.

Lemma getUserWorkflows_keeps_unreadable_dates_witness :
  Date_parse_iso (Run.created_at Outage.run_undated) = None /\
  exists runs,
    getUserWorkflows Outage.fetch Date_parse_iso Fixture.LocalTZA
      Fixture.GITHUB_USERNAME Fixture.REPOSITORIES Fixture.now = Resolved runs /\
    In (standalone_run "acme/api" Outage.run_undated) runs.
Proof.
  split; [reflexivity|].
  apply (getUserWorkflows_keeps_unreadable_dates Outage.fetch Date_parse_iso
           Fixture.LocalTZA Fixture.GITHUB_USERNAME Fixture.REPOSITORIES
           Fixture.now "acme/api" Outage.actor_runs Outage.run_undated).
  - left. reflexivity.
  - reflexivity.
  - right. left. reflexivity.
  - reflexivity.
  - reflexivity.
  - reflexivity.
Defined.

Lemma api_prs_degrades_per_pull_request_witness :
  githubRequest Fixture.fetch (issue_comments "acme" "web" 8)
  = Rejected "socket hang up" /\
  exists body p,
    api_prs Fixture.fetch Date_parse_iso Fixture.GITHUB_USERNAME Fixture.REPOSITORIES
    = {| Reply.status := 200; Reply.body := PullRequests body |} /\
    In p body /\
    pr_key p = ("acme/web", 8) /\
    PullRequest.latest_comment p = None.
Proof.
  split; [reflexivity|].
  destruct (api_prs_degrades_per_pull_request Fixture.fetch Date_parse_iso
              Fixture.GITHUB_USERNAME Fixture.REPOSITORIES
              "acme/web" [Fixture.pr7; Fixture.pr8] Fixture.pr8)
    as (body & p & Hbody & Hin & Hkey & _ & Hcomments & _).
  - right. right. left. reflexivity.
  - reflexivity.
  - right. left. reflexivity.
  - reflexivity.
  - exists body, p. split; [exact Hbody|]. split; [exact Hin|].
    split; [exact Hkey|].
    apply (Hcomments "socket hang up"). left. reflexivity.
Defined.

Lemma repository_entry_splits_witness :
  owner_of "acme/api" = "acme" /\ repoName_of "acme/api" = "api" /\
  repoName_of "acme/api/tree/main" = "api".
Proof.
  destruct (repository_entry_splits "acme" "api" eq_refl eq_refl)
    as (Howner & Hname & Hrest).
  split; [exact Howner|]. split; [exact Hname|].
  exact (proj2 (Hrest "tree/main")).
Defined.

Lemma repository_entry_without_slash_witness :
  owner_of "acme" = "acme" /\ repoName_of "acme" = "undefined".
Proof.
  destruct (repository_entry_without_slash Fixture.fetch "acme" eq_refl)
    as (Howner & Hname & _).
  split; [exact Howner | exact Hname].
Defined.

Lemma repoClass_palette_witness :
  NoDup Fixture.REPOSITORIES /\
  repoClass Fixture.REPOSITORIES "acme/web" = "repo-3" /\
  repoClass Fixture.REPOSITORIES "acme/cli" = "repo-0".
Proof.
  assert (Hnodup : NoDup Fixture.REPOSITORIES).
  { unfold Fixture.REPOSITORIES.
    repeat constructor; simpl; intros H;
      repeat match goal with
             | H : _ \/ _ |- _ => destruct H as [H | H]
             | H : False |- _ => destruct H
             | H : _ = _ |- _ => discriminate H
             end. }
  split; [exact Hnodup|].
  destruct (repoClass_palette Fixture.REPOSITORIES Hnodup)
    as (Habsent & Hplace & _ & _).
  split.
  - exact (Hplace 2%nat "acme/web" eq_refl).
  - apply Habsent. simpl. intros H.
    repeat match goal with
           | H : _ \/ _ |- _ => destruct H as [H | H]
           | H : False |- _ => destruct H
           | H : _ = _ |- _ => discriminate H
           end.
Defined.

Lemma loadData_renders_whatever_upstream_does_witness :
  exists prs workflows,
    Reply.body
      (api_prs Outage.fetch Date_parse_iso Fixture.GITHUB_USERNAME
         Fixture.REPOSITORIES) = PullRequests prs /\
    loadData Outage.card_of_pull Outage.card_of_run
      (Outage.feed 200 prs) (Outage.feed 200 workflows) Outage.blank_page
    = (page_loaded Outage.card_of_pull Outage.card_of_run prs workflows
         Outage.blank_page,
       Resolved tt) /\
    Page.refreshBtn_disabled
      (page_loaded Outage.card_of_pull Outage.card_of_run prs workflows
         Outage.blank_page) = false.
Proof.
  set (prs0 := match Reply.body
                       (api_prs Outage.fetch Date_parse_iso
                          Fixture.GITHUB_USERNAME Fixture.REPOSITORIES) with
               | PullRequests prs => prs
               | ErrorMessage _ => []
               end).
  set (wfs0 := match getUserWorkflows Outage.fetch Date_parse_iso Fixture.LocalTZA
                       Fixture.GITHUB_USERNAME Fixture.REPOSITORIES Fixture.now with
               | Resolved workflows => workflows
               | Rejected _ => []
               end).
  destruct (loadData_renders_whatever_upstream_does Outage.fetch Date_parse_iso
              Fixture.LocalTZA Fixture.GITHUB_USERNAME Fixture.REPOSITORIES
              Outage.card_of_pull Outage.card_of_run Fixture.now
              (Outage.feed 200 prs0) (Outage.feed 200 wfs0) Outage.blank_page)
    as (prs & workflows & Hprs & Hworkflows & Hload).
  - intros prs Hbody. eexists. split; [reflexivity|].
    assert (Eprs : prs = prs0) by (unfold prs0; now rewrite Hbody).
    rewrite Eprs. repeat split; reflexivity.
  - intros workflows Hbody. eexists. split; [reflexivity|].
    assert (Ewfs : workflows = wfs0)
      by (vm_compute in Hbody; injection Hbody as <-; reflexivity).
    rewrite Ewfs. repeat split; reflexivity.
  - exists prs, workflows. split; [exact Hprs|].
    assert (Eprs : prs = prs0) by (unfold prs0; now rewrite Hprs).
    assert (Ewfs : workflows = wfs0)
      by (vm_compute in Hworkflows; injection Hworkflows as <-; reflexivity).
    rewrite Eprs, Ewfs in *. split; [exact Hload | reflexivity].
Defined.
